(** * TransactionObserver: confirmation tracking of a submitted transaction

    Shallow embedding of
    [packages/web3-core-method/src/observers/TransactionObserver.js].

    The class keeps mutable counters on [this], talks to three external
    collaborators (the receipt method, the block method, the newHeads
    subscription), to the timer of the host ([setInterval] /
    [clearInterval]) and to the observer handed over by the Observable.
    The embedding threads the instance and the state of the two
    resources through a small state-and-exception monad that also
    records every call made to a collaborator, in program order.

    The callbacks are [async]: a cycle is suspended at every [await]
    while the subscription and the timer go on delivering. The host is
    modelled twice. [host_step] is the general one: it starts a cycle,
    or resumes a suspended one with what its awaited call settles to,
    in any order. [deliver] is the schedule in which a cycle settles
    before anything else is delivered, so that the whole callback runs
    as one step; [deliver_in_order] relates the two. The values the
    awaited calls resolve to (or the error they reject with) are inputs
    of the model. *)

From Stdlib Require Import ZArith List String Bool Lia.
Import ListNotations.
Local Open Scope string_scope.
Local Open Scope list_scope.
Local Open Scope Z_scope.

(** ** Data *)

(** A transaction receipt; only [blockHash] is read by the observer. *)
Record Receipt := mkReceipt {
  blockHash : string;
  transactionIndex : Z
}.

(** A block (or a block header announced by newHeads). *)
Record Block := mkBlock {
  hash : string;
  parentHash : string;
  number : Z
}.

(** Values that travel as exceptions. [TimeoutError] is the
    [new Error('Timeout exceeded ...')] object the observer creates
    itself, [TypeError] the host's error for a property read or a call
    on something that has no such property, [Rejected] whatever a
    collaborator throws or rejects with (an object of its own, so never
    the observer's timeout error). *)
Inductive ErrorValue :=
| TimeoutError
| TypeError (what : string)
| Rejected (message : string).

(** Calls leaving the observer, in the order the code makes them. The
    receipt handed to [observer.error] is [None] for a falsy value
    ([false], [null] or [undefined]). *)
Inductive Effect :=
| ReceiptExecute (transactionHash : string)
| BlockExecute (blockHash : string)
| ObserverNext (receipt : Receipt) (confirmations : Z)
| ObserverError (error : ErrorValue) (receipt : option Receipt)
                (confirmations confirmationChecks : Z)
| ObserverComplete
| SubscriptionSubscribe
| SubscriptionUnsubscribe
| SetInterval
| ClearInterval.

(** The fields of a [TransactionObserver] instance. [provider] is
    [provider.constructor.name], the only thing read from the provider.
    [lastBlock], [observable] and [interval] start as [false]:
    [lastBlock = None] stands for a falsy value, [observable] and
    [interval] say whether the field holds an object / a timer id. *)
Record TransactionObserver := mkObserver {
  provider : string;
  timeout : Z;
  blockConfirmations : Z;
  blockNumbers : list Z;
  lastBlock : option Block;
  confirmations : Z;
  confirmationChecks : Z;
  observable : bool;
  interval : bool
}.

(** The instance together with the two resources it drives. Each one
    holds the callback registered with it, if any; a callback is known
    by the transaction hash its closure captured. [subscribed] is the
    callback the newHeads subscription delivers heads to, [ticking] the
    callback of the timer armed by [setInterval]. *)
Record World := mkWorld {
  this : TransactionObserver;
  subscribed : option string;
  ticking : option string
}.

(** ** The monad *)

Inductive Outcome (A : Type) :=
| Return (a : A)
| Throw (e : ErrorValue).
Arguments Return {A} a.
Arguments Throw {A} e.

Definition M (A : Type) : Type := World -> Outcome A * World * list Effect.

Definition ret {A} (a : A) : M A := fun w => (Return a, w, []).

Definition bind {A B} (m : M A) (f : A -> M B) : M B :=
  fun w =>
    match m w with
    | (Return a, w1, l1) =>
        match f a w1 with
        | (o, w2, l2) => (o, w2, l1 ++ l2)
        end
    | (Throw e, w1, l1) => (Throw e, w1, l1)
    end.

Definition throw {A} (e : ErrorValue) : M A := fun w => (Throw e, w, []).

(** [try { body } catch (error) { handler }]: mutations and calls made
    before the throw stay. *)
Definition try_catch {A} (body : M A) (handler : ErrorValue -> M A) : M A :=
  fun w =>
    match body w with
    | (Return a, w1, l1) => (Return a, w1, l1)
    | (Throw e, w1, l1) =>
        match handler e w1 with
        | (o, w2, l2) => (o, w2, l1 ++ l2)
        end
    end.

Definition emit (e : Effect) : M unit := fun w => (Return tt, w, [e]).

Definition get_this : M TransactionObserver := fun w => (Return (this w), w, []).

Definition set_this (f : TransactionObserver -> TransactionObserver) : M unit :=
  fun w => (Return tt, mkWorld (f (this w)) (subscribed w) (ticking w), []).

Definition when (b : bool) (m : M unit) : M unit := if b then m else ret tt.

Notation "x <- m ;; k" := (bind m (fun x => k))
  (at level 61, m at next level, right associativity).
Notation "m ;; k" := (bind m (fun _ => k))
  (at level 61, right associativity).

Definition world_of {A} (r : Outcome A * World * list Effect) : World := snd (fst r).
Definition effects_of {A} (r : Outcome A * World * list Effect) : list Effect := snd r.
Definition outcome_of {A} (r : Outcome A * World * list Effect) : Outcome A := fst (fst r).

(** ** Field updates *)

Definition with_blockNumbers (l : list Z) (t : TransactionObserver) :=
  mkObserver (provider t) (timeout t) (blockConfirmations t) l (lastBlock t)
             (confirmations t) (confirmationChecks t) (observable t) (interval t).

Definition with_lastBlock (b : option Block) (t : TransactionObserver) :=
  mkObserver (provider t) (timeout t) (blockConfirmations t) (blockNumbers t) b
             (confirmations t) (confirmationChecks t) (observable t) (interval t).

Definition with_confirmations (c : Z) (t : TransactionObserver) :=
  mkObserver (provider t) (timeout t) (blockConfirmations t) (blockNumbers t)
             (lastBlock t) c (confirmationChecks t) (observable t) (interval t).

Definition with_confirmationChecks (c : Z) (t : TransactionObserver) :=
  mkObserver (provider t) (timeout t) (blockConfirmations t) (blockNumbers t)
             (lastBlock t) (confirmations t) c (observable t) (interval t).

Definition with_observable (o : bool) (t : TransactionObserver) :=
  mkObserver (provider t) (timeout t) (blockConfirmations t) (blockNumbers t)
             (lastBlock t) (confirmations t) (confirmationChecks t) o (interval t).

Definition with_interval (i : bool) (t : TransactionObserver) :=
  mkObserver (provider t) (timeout t) (blockConfirmations t) (blockNumbers t)
             (lastBlock t) (confirmations t) (confirmationChecks t) (observable t) i.

(** ** External collaborators *)

(** What an awaited call settles to. *)
Inductive Reply (A : Type) :=
| Resolved (a : A)
| Failed (message : string).
Arguments Resolved {A} a.
Arguments Failed {A} message.

Definition settle {A} (r : Reply A) : M A :=
  match r with
  | Resolved a => ret a
  | Failed message => throw (Rejected message)
  end.

(** [this.getTransactionReceiptMethod.parameters = [transactionHash];
     await this.getTransactionReceiptMethod.execute()].
    The receipt is [None] while the transaction is not mined. *)
Definition getTransactionReceipt (transactionHash : string)
    (reply : Reply (option Receipt)) : M (option Receipt) :=
  emit (ReceiptExecute transactionHash) ;; settle reply.

(** [newHeadsSubscription.subscribe(callback)] and [.unsubscribe()]. *)
Definition newHeadsSubscription_subscribe (transactionHash : string) : M unit :=
  fun w => (Return tt, mkWorld (this w) (Some transactionHash) (ticking w),
            [SubscriptionSubscribe]).

Definition newHeadsSubscription_unsubscribe : M unit :=
  fun w => (Return tt, mkWorld (this w) None (ticking w), [SubscriptionUnsubscribe]).

(** [this.interval = setInterval(callback, 1000)]. *)
Definition setInterval (transactionHash : string) : M unit :=
  fun w => (Return tt,
            mkWorld (with_interval true (this w)) (subscribed w) (Some transactionHash),
            [SetInterval]).

(** [clearInterval(this.interval)]: disarms the timer when the field
    holds its id, does nothing on [false]. *)
Definition clearInterval : M unit :=
  fun w => (Return tt,
            mkWorld (this w) (subscribed w)
                    (if interval (this w) then None else ticking w),
            [ClearInterval]).

(** ** The class *)

(** [constructor(provider, timeout, blockConfirmations, ...)]. *)
Definition constructor (provider : string) (timeout blockConfirmations : Z)
    : TransactionObserver :=
  mkObserver provider timeout blockConfirmations [] None 0 0 false false.

(** A world in which nothing is subscribed and no timer is armed. *)
Definition new_world (provider : string) (timeout blockConfirmations : Z) : World :=
  mkWorld (constructor provider timeout blockConfirmations) None None.

(** [isSocketBasedProvider()]. *)
Definition isSocketBasedProvider (t : TransactionObserver) : bool :=
  if String.eqb (provider t) "CustomProvider" then false
  else if String.eqb (provider t) "HttpProvider" then false
  else true.

(** [isConfirmed()]. *)
Definition isConfirmed (t : TransactionObserver) : bool :=
  confirmations t =? blockConfirmations t.

(** [isTimeoutTimeExceeded()]. *)
Definition isTimeoutTimeExceeded (t : TransactionObserver) : bool :=
  confirmationChecks t =? timeout t.

(** [isValidConfirmation(block)], called with [this.lastBlock] truthy.
    Reading [block.parentHash] throws when [block] is [null]. *)
Definition isValidConfirmation (block : option Block) : M bool :=
  t <- get_this ;;
  match lastBlock t, block with
  | Some last, Some b =>
      ret (String.eqb (hash last) (parentHash b)
           && negb (number last =? number b))
  | _, None => throw (TypeError "parentHash")
  | None, Some b => ret false
  end.

(** [getBlockByHash(blockHash)]; [null] when the node knows no such block. *)
Definition getBlockByHash (blockHash : string) (reply : Reply (option Block))
    : M (option Block) :=
  emit (BlockExecute blockHash) ;; settle reply.

(** [emitNext(receipt, observer)]. *)
Definition emitNext (receipt : Receipt) : M unit :=
  t <- get_this ;;
  emit (ObserverNext receipt (confirmations t)).

(** [emitError(error, receipt, observer)]. *)
Definition emitError (error : ErrorValue) (receipt : option Receipt) : M unit :=
  t <- get_this ;;
  emit (ObserverError error receipt (confirmations t) (confirmationChecks t)).

Definition observer_complete : M unit := emit ObserverComplete.

(** [this.confirmations++], [this.confirmationChecks++],
    [this.blockNumbers.push(n)], [this.lastBlock = block]. *)
Definition confirmations_incr : M unit :=
  set_this (fun t => with_confirmations (confirmations t + 1) t).

Definition confirmationChecks_incr : M unit :=
  set_this (fun t => with_confirmationChecks (confirmationChecks t + 1) t).

Definition blockNumbers_push (n : Z) : M unit :=
  set_this (fun t => with_blockNumbers (blockNumbers t ++ [n]) t).

Definition set_lastBlock (b : option Block) : M unit :=
  set_this (with_lastBlock b).

(** [Array.prototype.includes] on [this.blockNumbers]. *)
Definition includes (l : list Z) (n : Z) : bool := existsb (Z.eqb n) l.

(** ** Push mode *)

(** One delivery of the newHeads subscription: the error argument, the
    announced head, and what the receipt call of this cycle settles to.
    With an error the head is not read. *)
Record NewHead := mkNewHead {
  newHeadError : option string;
  newHead : Block;
  newHeadReceipt : Reply (option Receipt)
}.

(** The async callback given to [newHeadsSubscription.subscribe] in
    [startSocketObserver]; [transactionHash] is captured by its closure. *)
Definition socketCallback (transactionHash : string) (a : NewHead) : M unit :=
  try_catch
    (match newHeadError a with
     | Some message => throw (Rejected message)
     | None => ret tt
     end ;;
     receipt <- getTransactionReceipt transactionHash (newHeadReceipt a) ;;
     t <- get_this ;;
     when (negb (includes (blockNumbers t) (number (newHead a))))
       (match receipt with
        | Some r =>
            confirmations_incr ;;
            emitNext r ;;
            t <- get_this ;;
            when (isConfirmed t)
              (newHeadsSubscription_unsubscribe ;;
               observer_complete)
        | None => ret tt
        end ;;
        blockNumbers_push (number (newHead a)) ;;
        confirmationChecks_incr ;;
        t <- get_this ;;
        when (isTimeoutTimeExceeded t)
          (emitError TimeoutError receipt ;;
           newHeadsSubscription_unsubscribe)))
    (fun error => emitError error None).

(** [startSocketObserver(transactionHash, observer)]: registers
    [socketCallback transactionHash]. *)
Definition startSocketObserver (transactionHash : string) : M unit :=
  newHeadsSubscription_subscribe transactionHash.

(** ** Poll mode *)

(** One firing of the timer: what the receipt call and (when it is
    made) the block call of this cycle settle to. *)
Record Tick := mkTick {
  tickReceipt : Reply (option Receipt);
  tickBlock : Reply (option Block)
}.

(** The async callback given to [setInterval] in [startHttpObserver];
    [transactionHash] is captured by its closure. *)
Definition httpCallback (transactionHash : string) (a : Tick) : M unit :=
  try_catch
    (receipt <- getTransactionReceipt transactionHash (tickReceipt a) ;;
     match receipt with
     | Some r =>
         t <- get_this ;;
         match lastBlock t with
         | Some _ =>
             block <- getBlockByHash (blockHash r) (tickBlock a) ;;
             valid <- isValidConfirmation block ;;
             when valid
               (confirmations_incr ;;
                emitNext r ;;
                set_lastBlock block)
         | None =>
             block <- getBlockByHash (blockHash r) (tickBlock a) ;;
             set_lastBlock block ;;
             confirmations_incr ;;
             emitNext r
         end ;;
         t <- get_this ;;
         when (isConfirmed t)
           (clearInterval ;;
            observer_complete)
     | None => ret tt
     end ;;
     confirmationChecks_incr ;;
     t <- get_this ;;
     when (isTimeoutTimeExceeded t)
       (clearInterval ;;
        emitError TimeoutError receipt))
    (fun error =>
       clearInterval ;;
       emitError error None).

(** [startHttpObserver(transactionHash, observer)]: arms the timer with
    [httpCallback transactionHash]. *)
Definition startHttpObserver (transactionHash : string) : M unit :=
  setInterval transactionHash.

(** ** Orchestration *)

(** [observe(transactionHash)]: stores a cold Observable; nothing runs
    until it is subscribed to. *)
Definition observe (transactionHash : string) : M unit :=
  set_this (with_observable true).

(** The function given to [Observable.create] in [observe], run when
    the Observable is subscribed to. *)
Definition onSubscribe (transactionHash : string) : M unit :=
  t <- get_this ;;
  if isSocketBasedProvider t
  then startSocketObserver transactionHash
  else startHttpObserver transactionHash.

(** [stop()]. [this.observable] is [false] until [observe] ran and
    the Observable made by [Observable.create] from then on. Neither
    has an [unsubscribe] method (rxjs gives that method to the
    Subscription that [subscribe] returns, which the class never
    stores), so the call on the last line is a TypeError in every
    state, raised after the resource has been released. *)
Definition stop : M unit :=
  t <- get_this ;;
  (if isSocketBasedProvider t
   then newHeadsSubscription_unsubscribe
   else clearInterval) ;;
  throw (TypeError "unsubscribe").

(** ** The host: cycles that settle before the next one starts *)

(** A whole cycle: the subscription announces a head, or the timer
    fires, and the calls the callback awaits settle before anything
    else is delivered. A head reaches the registered callback only
    while the subscription is live, a timer firing only while the timer
    is armed. *)
Inductive Cycle :=
| Announce (a : NewHead)
| Fire (a : Tick).

Definition deliver (c : Cycle) : M unit :=
  fun w =>
    match c with
    | Announce a =>
        match subscribed w with
        | Some transactionHash => socketCallback transactionHash a w
        | None => (Return tt, w, [])
        end
    | Fire a =>
        match ticking w with
        | Some transactionHash => httpCallback transactionHash a w
        | None => (Return tt, w, [])
        end
    end.

Fixpoint run (cs : list Cycle) : M unit :=
  match cs with
  | [] => ret tt
  | c :: cs' => deliver c ;; run cs'
  end.

(** A fresh tracker on which [observe(transactionHash)] was called and
    the returned Observable subscribed to. *)
Definition started (transactionHash provider : string)
    (timeout blockConfirmations : Z) : World :=
  world_of ((observe transactionHash ;; onSubscribe transactionHash)
              (new_world provider timeout blockConfirmations)).

(** ** The host: cycles that overlap *)

(** A cycle suspended at an [await]: a push cycle waiting for its
    receipt call (line 110), a poll cycle waiting for its receipt call
    (line 159), or a poll cycle waiting for its block call, made on
    line 170 when [this.lastBlock] was falsy ([first = true]) and on
    line 163 otherwise. What the closure holds on to is kept with it. *)
Inductive Pending :=
| PushReceipt (newHead : Block)
| PollReceipt
| PollBlock (receipt : Receipt) (first : bool).

(** The push callback from its start to the [await] of the receipt
    call: a subscription error goes to the [catch] block and ends the
    cycle, otherwise the receipt call is made and the cycle waits. *)
Definition socketBegin (transactionHash : string)
    (newHeadError : option string) (newHead : Block) : M (option Pending) :=
  try_catch
    (match newHeadError with
     | Some message => throw (Rejected message)
     | None => ret tt
     end ;;
     emit (ReceiptExecute transactionHash) ;;
     ret (Some (PushReceipt newHead)))
    (fun error => emitError error None ;; ret None).

(** The push callback from the settlement of its receipt call to its
    end. Nothing here asks whether the subscription is still live. *)
Definition socketResume (newHead : Block) (reply : Reply (option Receipt))
    : M unit :=
  try_catch
    (receipt <- settle reply ;;
     t <- get_this ;;
     when (negb (includes (blockNumbers t) (number newHead)))
       (match receipt with
        | Some r =>
            confirmations_incr ;;
            emitNext r ;;
            t <- get_this ;;
            when (isConfirmed t)
              (newHeadsSubscription_unsubscribe ;;
               observer_complete)
        | None => ret tt
        end ;;
        blockNumbers_push (number newHead) ;;
        confirmationChecks_incr ;;
        t <- get_this ;;
        when (isTimeoutTimeExceeded t)
          (emitError TimeoutError receipt ;;
           newHeadsSubscription_unsubscribe)))
    (fun error => emitError error None).

(** The poll callback from its start to the [await] of the receipt
    call. *)
Definition httpBegin (transactionHash : string) : M (option Pending) :=
  emit (ReceiptExecute transactionHash) ;;
  ret (Some PollReceipt).

(** The end of the poll callback's [try] block: the check is counted
    and the budget tested. *)
Definition httpChecks (receipt : option Receipt) : M unit :=
  confirmationChecks_incr ;;
  t <- get_this ;;
  when (isTimeoutTimeExceeded t)
    (clearInterval ;;
     emitError TimeoutError receipt).

(** The poll callback's [catch] block. *)
Definition httpCatch (error : ErrorValue) : M unit :=
  clearInterval ;;
  emitError error None.

(** The poll callback from the settlement of its receipt call to the
    [await] of the block call, or to its end when there is no receipt.
    [this.lastBlock] is tested before the block call is awaited. *)
Definition httpResumeReceipt (reply : Reply (option Receipt))
    : M (option Pending) :=
  try_catch
    (receipt <- settle reply ;;
     match receipt with
     | Some r =>
         t <- get_this ;;
         emit (BlockExecute (blockHash r)) ;;
         ret (Some (PollBlock r match lastBlock t with
                                | Some _ => false
                                | None => true
                                end))
     | None => httpChecks None ;; ret None
     end)
    (fun error => httpCatch error ;; ret None).

(** The poll callback from the settlement of its block call to its
    end. On line 163 the block is tested against the [this.lastBlock]
    of now; this was truthy when the cycle chose that line, so a falsy
    value now is a [null] stored meanwhile by line 170 of another
    cycle, and reading its [hash] throws. *)
Definition httpResumeBlock (receipt : Receipt) (first : bool)
    (reply : Reply (option Block)) : M unit :=
  try_catch
    (block <- settle reply ;;
     (if first
      then set_lastBlock block ;;
           confirmations_incr ;;
           emitNext receipt
      else t <- get_this ;;
           valid <- match lastBlock t with
                    | Some _ => isValidConfirmation block
                    | None => throw (TypeError "hash")
                    end ;;
           when valid
             (confirmations_incr ;;
              emitNext receipt ;;
              set_lastBlock block)) ;;
     t <- get_this ;;
     when (isConfirmed t)
       (clearInterval ;;
        observer_complete) ;;
     httpChecks (Some receipt))
    httpCatch.

(** The tracker, its resources and the cycles in flight. *)
Record Host := mkHost {
  world : World;
  pending : list Pending
}.

(** What the host can do next: the subscription delivers (an error or
    a head), the timer fires, or the call awaited by the [i]-th cycle
    in flight settles. *)
Inductive Event :=
| Announced (newHeadError : option string) (newHead : Block)
| Fired
| ReceiptSettled (i : nat) (reply : Reply (option Receipt))
| BlockSettled (i : nat) (reply : Reply (option Block)).

Fixpoint remove_nth {A} (i : nat) (l : list A) : list A :=
  match l, i with
  | [], _ => []
  | _ :: l', O => l'
  | x :: l', S i' => x :: remove_nth i' l'
  end.

(** The cycle a begun or resumed callback is left waiting in, if any. *)
Definition waiting (o : Outcome (option Pending)) : list Pending :=
  match o with
  | Return (Some p) => [p]
  | _ => []
  end.

(** One event. A delivery starts a cycle only while its resource holds
    a callback; a settlement resumes the cycle it belongs to, whatever
    has become of the resource meanwhile; an event that matches no
    cycle in flight does nothing. *)
Definition host_step (e : Event) (h : Host) : Host * list Effect :=
  match e with
  | Announced newHeadError newHead =>
      match subscribed (world h) with
      | Some transactionHash =>
          let r := socketBegin transactionHash newHeadError newHead (world h) in
          (mkHost (world_of r) (pending h ++ waiting (outcome_of r)), effects_of r)
      | None => (h, [])
      end
  | Fired =>
      match ticking (world h) with
      | Some transactionHash =>
          let r := httpBegin transactionHash (world h) in
          (mkHost (world_of r) (pending h ++ waiting (outcome_of r)), effects_of r)
      | None => (h, [])
      end
  | ReceiptSettled i reply =>
      match nth_error (pending h) i with
      | Some (PushReceipt newHead) =>
          let r := socketResume newHead reply (world h) in
          (mkHost (world_of r) (remove_nth i (pending h)), effects_of r)
      | Some PollReceipt =>
          let r := httpResumeReceipt reply (world h) in
          (mkHost (world_of r)
                  (remove_nth i (pending h) ++ waiting (outcome_of r)),
           effects_of r)
      | _ => (h, [])
      end
  | BlockSettled i reply =>
      match nth_error (pending h) i with
      | Some (PollBlock receipt first) =>
          let r := httpResumeBlock receipt first reply (world h) in
          (mkHost (world_of r) (remove_nth i (pending h)), effects_of r)
      | _ => (h, [])
      end
  end.

Fixpoint host_run (es : list Event) (h : Host) : Host * list Effect :=
  match es with
  | [] => (h, [])
  | e :: es' =>
      let (h1, l1) := host_step e h in
      let (h2, l2) := host_run es' h1 in
      (h2, l1 ++ l2)
  end.

(** The events of a whole cycle delivered on its own: the delivery,
    then the settlement of the receipt call and of the block call. The
    settlements of calls the cycle does not make match nothing. *)
Definition in_order (c : Cycle) : list Event :=
  match c with
  | Announce a =>
      [Announced (newHeadError a) (newHead a);
       ReceiptSettled 0 (newHeadReceipt a)]
  | Fire a =>
      [Fired; ReceiptSettled 0 (tickReceipt a); BlockSettled 0 (tickBlock a)]
  end.

Definition host_of (r : Host * list Effect) : Host := fst r.
Definition effects_of_host (r : Host * list Effect) : list Effect := snd r.

(** The events of a sequence of whole cycles, one cycle after the
    other. *)
Definition schedule (cs : list Cycle) : list Event := flat_map in_order cs.

(** Helpers to read a list of calls. *)
Definition is_next (e : Effect) : bool :=
  match e with ObserverNext _ _ => true | _ => false end.

Definition is_error (e : Effect) : bool :=
  match e with ObserverError _ _ _ _ => true | _ => false end.

Definition is_timeout_error (e : Effect) : bool :=
  match e with ObserverError TimeoutError _ _ _ => true | _ => false end.

Definition is_complete (e : Effect) : bool :=
  match e with ObserverComplete => true | _ => false end.

Definition is_callback (e : Effect) : bool :=
  is_next e || is_error e || is_complete e.

Definition is_terminal (e : Effect) : bool := is_error e || is_complete e.

Definition is_receipt_fetch (e : Effect) : bool :=
  match e with ReceiptExecute _ => true | _ => false end.

Definition is_release (e : Effect) : bool :=
  match e with SubscriptionUnsubscribe | ClearInterval => true | _ => false end.

Definition count (p : Effect -> bool) (l : list Effect) : nat :=
  List.length (filter p l).

(** ** Sample data for concrete runs *)

Module Sample.
Definition tx : string := "0xtx".
Definition block5 : Block := mkBlock "0xb5" "0xb4" 5.
Definition block6 : Block := mkBlock "0xb6" "0xb5" 6.
(** Names [block5] as its parent but is lower than it. *)
Definition block3 : Block := mkBlock "0xc3" "0xb5" 3.
Definition head (n : Z) : Block := mkBlock "0xhead" "0xparent" n.
(** The receipt of the transaction once it is mined in [b]. *)
Definition receipt_in (b : Block) : Receipt := mkReceipt (hash b) 0.
Definition receipt : Receipt := receipt_in block5.

(** A head announced while the receipt exists / does not exist yet,
    and a delivery that carries a subscription error. *)
Definition mined_head (n : Z) : NewHead :=
  mkNewHead None (head n) (Resolved (Some receipt)).
Definition mined (n : Z) : Cycle := Announce (mined_head n).
Definition pending (n : Z) : Cycle :=
  Announce (mkNewHead None (head n) (Resolved None)).
Definition broken : Cycle :=
  Announce (mkNewHead (Some "connection lost") (head 0) (Resolved None)).

(** A timer firing that finds the transaction mined in [b], and one
    that finds no receipt. *)
Definition tick (b : Block) : Tick :=
  mkTick (Resolved (Some (receipt_in b))) (Resolved (Some b)).
Definition quiet : Cycle := Fire (mkTick (Resolved None) (Resolved None)).

(** A push tracker that has seen head 10, and a poll tracker that has
    accepted [block5] as its first confirmation. *)
Definition seen10 : World :=
  world_of (run [pending 10] (started tx "WebsocketProvider" 5 2)).
Definition after_block5 : World :=
  world_of (run [Fire (tick block5)] (started tx "HttpProvider" 10 5)).
End Sample.

(** ** Vocabulary of the properties *)

(** A cycle handed the timeout error to the observer. *)
Definition timeout_fired (l : list Effect) : bool := existsb is_timeout_error l.

(** The test [isValidConfirmation] makes, as a proposition. *)
Definition extends_last (last block : Block) : Prop :=
  hash last = parentHash block /\ number last <> number block.

(** The cycle took [block] as a confirmation carried by [receipt]. *)
Definition accepted (w : World) (res : Outcome unit * World * list Effect)
    (receipt : Receipt) (block : Block) : Prop :=
  confirmations (this (world_of res)) = confirmations (this w) + 1 /\
  In (ObserverNext receipt (confirmations (this w) + 1)) (effects_of res) /\
  lastBlock (this (world_of res)) = Some block.

(** The four fields the cycles count with. *)
Definition confirmation_state (t : TransactionObserver)
    : Z * Z * list Z * option Block :=
  (confirmations t, confirmationChecks t, blockNumbers t, lastBlock t).

(** The invariant of an observation: the count stays within the
    target, a live resource means the target is not reached yet, only
    one of the two resources is in use, and an armed timer is the one
    [this.interval] names. *)
Definition within_target (c : Z) (w : World) : Prop :=
  blockConfirmations (this w) = c /\
  (subscribed w <> None -> ticking w = None) /\
  0 <= confirmations (this w) <= c /\
  (subscribed w <> None -> confirmations (this w) < c) /\
  (ticking w <> None -> confirmations (this w) < c /\ interval (this w) = true).

(** The [confirmations] values handed to [next], in call order. *)
Fixpoint next_confirmations (l : list Effect) : list Z :=
  match l with
  | [] => []
  | ObserverNext _ c :: l' => c :: next_confirmations l'
  | _ :: l' => next_confirmations l'
  end.

(** The [n] consecutive integers that start at [a]. *)
Fixpoint count_from (a : Z) (n : nat) : list Z :=
  match n with
  | O => []
  | S n' => a :: count_from (a + 1) n'
  end.

Definition is_block_fetch (e : Effect) : bool :=
  match e with BlockExecute _ => true | _ => false end.

(** An [error] call made by a [catch] block, that is with any error
    but the observer's own timeout error. *)
Definition is_failure (e : Effect) : bool :=
  match e with
  | ObserverError TimeoutError _ _ _ => false
  | ObserverError _ _ _ _ => true
  | _ => false
  end.

(** A receipt call for another transaction than [transactionHash]. *)
Definition is_foreign_fetch (transactionHash : string) (e : Effect) : bool :=
  match e with
  | ReceiptExecute h => negb (String.eqb h transactionHash)
  | _ => false
  end.

(** Nothing is registered any more: no head and no timer firing can
    reach a callback. *)
Definition idle (w : World) : Prop := subscribed w = None /\ ticking w = None.

(** The shape of a tracker on which [observe(transactionHash)] ran and
    whose Observable was subscribed to once: only the resource of its
    mode is ever engaged, with the callback of that transaction, and an
    armed timer is the one [this.interval] names. *)
Definition in_mode (transactionHash : string) (w : World) : Prop :=
  observable (this w) = true /\
  if isSocketBasedProvider (this w)
  then ticking w = None /\
       (subscribed w = None \/ subscribed w = Some transactionHash)
  else subscribed w = None /\
       (ticking w = None \/
        (ticking w = Some transactionHash /\ interval (this w) = true)).

(** How the counters of a tracker relate during one observation:
    confirmations never outnumber checks; in push mode every check
    recorded a block number and [lastBlock] is never set; in poll mode
    no block number is ever recorded. *)
Definition counts_agree (w : World) : Prop :=
  0 <= confirmations (this w) <= confirmationChecks (this w) /\
  if isSocketBasedProvider (this w)
  then confirmationChecks (this w) = Z.of_nat (List.length (blockNumbers (this w)))
       /\ lastBlock (this w) = None
  else blockNumbers (this w) = [].

(** Timer firings that find no receipt; the block replies are never
    asked for. *)
Definition ticks_without_receipt (bs : list (Reply (option Block))) : list Cycle :=
  map (fun b => Fire (mkTick (Resolved None) b)) bs.

(** Announcements of the given heads, each finding the receipt listed
    with it. *)
Definition heads_with_receipt (hs : list (Block * Receipt)) : list Cycle :=
  map (fun hr => Announce (mkNewHead None (fst hr) (Resolved (Some (snd hr))))) hs.

(** The calls of a push observation that finds a receipt at every head
    until the target is reached: a receipt call and a [next] per head,
    numbered from [from], then [unsubscribe] and [complete]. *)
Fixpoint confirming_calls (transactionHash : string) (from : Z)
    (rs : list Receipt) : list Effect :=
  match rs with
  | [] => [SubscriptionUnsubscribe; ObserverComplete]
  | r :: rs' =>
      ReceiptExecute transactionHash :: ObserverNext r from
      :: confirming_calls transactionHash (from + 1) rs'
  end.

(** Every block of the list passes the test of [isValidConfirmation]
    against the block before it; the first one against [previous], when
    there is one. *)
Fixpoint chained_from (previous : option Block) (bs : list Block) : Prop :=
  match bs with
  | [] => True
  | b :: bs' =>
      match previous with
      | Some last => extends_last last b
      | None => True
      end /\ chained_from (Some b) bs'
  end.

(** Timer firings that find the given receipts, each with the block the
    node returns for it. *)
Definition ticks_with_receipt (brs : list (Block * Receipt)) : list Cycle :=
  map (fun br => Fire (mkTick (Resolved (Some (snd br))) (Resolved (Some (fst br)))))
      brs.

(** The calls of a poll observation in which every tick counts a
    confirmation until the target is reached: a receipt call, a block
    call and a [next] per tick, numbered from [from], then
    [clearInterval] and [complete]. *)
Fixpoint polling_calls (transactionHash : string) (from : Z)
    (brs : list (Block * Receipt)) : list Effect :=
  match brs with
  | [] => [ClearInterval; ObserverComplete]
  | br :: brs' =>
      ReceiptExecute transactionHash :: BlockExecute (blockHash (snd br))
      :: ObserverNext (snd br) from
      :: polling_calls transactionHash (from + 1) brs'
  end.

(** A cycle in flight that was begun by the timer. *)
Definition poll_pending (p : Pending) : bool :=
  match p with
  | PushReceipt _ => false
  | _ => true
  end.

(** A host in poll mode: no callback is subscribed, an armed timer is
    the one [this.interval] names, and every cycle in flight was begun
    by the timer. *)
Definition poll_host (h : Host) : Prop :=
  subscribed (world h) = None /\
  (ticking (world h) = None \/ interval (this (world h)) = true) /\
  forallb poll_pending (pending h) = true.

(** The configuration given to the constructor. *)
Definition configuration (t : TransactionObserver) : string * Z * Z :=
  (provider t, timeout t, blockConfirmations t).

(** * Properties *)

(** ** Proof machinery *)

(** Symbolic execution of a callback: unfold the monad and the methods,
    then split on every test the code makes. *)
Ltac step_code :=
  cbv [socketCallback httpCallback deliver stop observe onSubscribe
       startSocketObserver startHttpObserver
       try_catch bind ret throw when get_this set_this emit settle
       getTransactionReceipt getBlockByHash isValidConfirmation
       emitNext emitError observer_complete
       confirmations_incr confirmationChecks_incr blockNumbers_push set_lastBlock
       newHeadsSubscription_subscribe newHeadsSubscription_unsubscribe
       setInterval clearInterval
       with_blockNumbers with_lastBlock with_confirmations
       with_confirmationChecks with_observable with_interval
       isConfirmed isTimeoutTimeExceeded
       world_of effects_of outcome_of fst snd
       this subscribed ticking
       provider timeout blockConfirmations blockNumbers lastBlock
       confirmations confirmationChecks observable interval
       newHeadError newHead newHeadReceipt tickReceipt tickBlock] in *;
  cbn [app] in *.

Ltac split_test :=
  match goal with
  | |- context [if ?b then _ else _] => destruct b eqn:?
  | |- context [match ?x with Some _ => _ | None => _ end] => destruct x eqn:?
  | |- context [match ?x with Resolved _ => _ | Failed _ => _ end] => destruct x eqn:?
  end.

Ltac run_code := step_code; repeat (split_test; step_code).

Ltac to_prop :=
  repeat match goal with
  | H : (_ =? _) = true |- _ => apply Z.eqb_eq in H
  | H : (_ =? _) = false |- _ => apply Z.eqb_neq in H
  | H : (_ =? _)%string = true |- _ => apply String.eqb_eq in H
  | H : (_ =? _)%string = false |- _ => apply String.eqb_neq in H
  | H : negb _ = true |- _ => apply negb_true_iff in H
  | H : negb _ = false |- _ => apply negb_false_iff in H
  | H : _ && _ = true |- _ => apply andb_true_iff in H; destruct H
  | H : _ && _ = false |- _ => apply andb_false_iff in H
  end.

(** ** The host loop *)

(** Both callbacks catch everything: a delivery never throws. *)
Lemma deliver_returns c w : outcome_of (deliver c w) = Return tt.
Proof.
  destruct c as [[e h rp] | [rp bp]], w as [[p t c bn lb cf ck ob iv] sb tk];
    run_code; reflexivity.
Qed.

Lemma run_cons c cs w :
  run (c :: cs) w =
  (outcome_of (run cs (world_of (deliver c w))),
   world_of (run cs (world_of (deliver c w))),
   effects_of (deliver c w) ++ effects_of (run cs (world_of (deliver c w)))).
Proof.
  pose proof (deliver_returns c w) as R.
  cbn [run]. unfold bind, outcome_of, world_of, effects_of in *.
  destruct (deliver c w) as [[o w1] l1]. cbn in *. subst o.
  destruct (run cs w1) as [[o2 w2] l2]. reflexivity.
Qed.

(** Once both resources are released no cycle is delivered any more. *)
Lemma run_idle cs w :
  subscribed w = None -> ticking w = None ->
  run cs w = (Return tt, w, []).
Proof.
  intros Hs Ht. induction cs as [| c cs IH]; [reflexivity |].
  rewrite run_cons.
  assert (D : deliver c w = (Return tt, w, [])).
  { destruct c; cbn [deliver]; rewrite ?Hs, ?Ht; reflexivity. }
  rewrite D. unfold world_of, effects_of, outcome_of. cbn [fst snd].
  rewrite IH. reflexivity.
Qed.

(** ** The bound on [confirmations] *)

Lemma within_target_started txh p t c :
  0 < c -> within_target c (started txh p t c).
Proof.
  intros Hc. unfold started, new_world, constructor, within_target.
  run_code; repeat split; try lia; try discriminate; try congruence; auto.
Qed.

Lemma within_target_deliver c k w :
  within_target c w -> within_target c (world_of (deliver k w)).
Proof.
  unfold within_target.
  destruct k as [[e h rp] | [rp bp]], w as [[p t c0 bn lb cf ck ob iv] sb tk];
    step_code; intros (-> & Hx & Hb & Hs & Ht); run_code; to_prop;
    repeat split; intros; try congruence; try tauto;
    repeat match goal with
           | H : ?P -> _, H' : ?P |- _ => specialize (H H')
           | H : Some _ <> None -> _ |- _ => specialize (H ltac:(discriminate))
           | H : _ /\ _ |- _ => destruct H
           end;
    subst; try discriminate; try lia; try reflexivity; try congruence.
Qed.

Lemma within_target_run c cs : forall w,
  within_target c w -> within_target c (world_of (run cs w)).
Proof.
  induction cs as [| k cs IH]; intros w Hw; [exact Hw |].
  rewrite run_cons. unfold world_of at 1. cbn [fst snd].
  apply IH, within_target_deliver, Hw.
Qed.

(** C6 (amended): starting from a fresh tracker observed once, whose
    target is positive, after any sequence of cycles of either mode
    each of which settles before the next is delivered, the count of
    confirmations lies between 0 and [blockConfirmations]; and once it
    equals [blockConfirmations] the subscription is released and the
    timer disarmed, so whatever is announced or fired afterwards makes
    no call at all (no further [next]) and changes nothing. *)
Theorem C6_confirmations_within_target p t c txh cs :
  0 < c ->
  let w := world_of (run cs (started txh p t c)) in
  0 <= confirmations (this w) <= blockConfirmations (this w) /\
  blockConfirmations (this w) = c /\
  (confirmations (this w) = blockConfirmations (this w) ->
   subscribed w = None /\ ticking w = None /\
   forall more, run more w = (Return tt, w, [])).
Proof.
  intros Hc w.
  destruct (within_target_run c cs _ (within_target_started txh p t c Hc))
    as (Hb & _ & Hr & Hs & Ht).
  fold w in Hb, Hr, Hs, Ht. rewrite Hb.
  assert (Hidle : confirmations (this w) = c ->
                  subscribed w = None /\ ticking w = None).
  { intros E. split.
    - destruct (subscribed w); [| reflexivity].
      specialize (Hs ltac:(discriminate)). lia.
    - destruct (ticking w); [| reflexivity].
      destruct (Ht ltac:(discriminate)). lia. }
  repeat split; try lia; try (apply Hidle; assumption).
  intros more. apply run_idle; apply Hidle; assumption.
Qed.

Lemma C6_confirmations_within_target_witness :
  0 <= confirmations (this (world_of (run
         [Sample.pending 10; Sample.mined 11; Sample.mined 11; Sample.mined 12;
          Sample.mined 13]
         (started Sample.tx "WebsocketProvider" 9 2))))
    <= 2.
Proof.
  pose proof (C6_confirmations_within_target "WebsocketProvider" 9 2 Sample.tx
         [Sample.pending 10; Sample.mined 11; Sample.mined 11; Sample.mined 12;
          Sample.mined 13] ltac:(lia)) as H.
  cbv zeta in H. destruct H as (H & Hc & _). rewrite Hc in H. exact H.
Defined.

(** The claim as stated bounds the count over every sequence of cycles.
    With a target of one confirmation, two heads announced before the
    receipt call of the first settles give two cycles in flight; the
    first to resume counts 1, unsubscribes and completes, the second
    counts 2 and calls [next] after [complete]. And on a tracker that
    has completed, a second [observe] goes on counting from the target:
    two more heads make 3. *)
Lemma C6_counterexample :
  effects_of_host
    (host_run [Announced None (Sample.head 10); Announced None (Sample.head 11);
               ReceiptSettled 0 (Resolved (Some Sample.receipt));
               ReceiptSettled 0 (Resolved (Some Sample.receipt))]
       (mkHost (started Sample.tx "WebsocketProvider" 50 1) []))
  = [ReceiptExecute Sample.tx; ReceiptExecute Sample.tx;
     ObserverNext Sample.receipt 1; SubscriptionUnsubscribe; ObserverComplete;
     ObserverNext Sample.receipt 2] /\
  confirmations (this (world (host_of
    (host_run [Announced None (Sample.head 10); Announced None (Sample.head 11);
               ReceiptSettled 0 (Resolved (Some Sample.receipt));
               ReceiptSettled 0 (Resolved (Some Sample.receipt))]
       (mkHost (started Sample.tx "WebsocketProvider" 50 1) []))))) = 2 /\
  confirmations (this (world_of
    (run [Sample.mined 11; Sample.mined 12]
       (world_of ((observe Sample.tx ;; onSubscribe Sample.tx)
          (world_of (run [Sample.mined 10]
                       (started Sample.tx "WebsocketProvider" 50 1)))))))) = 3 /\
  ~ 2 <= blockConfirmations (this (started Sample.tx "WebsocketProvider" 50 1)).
Proof. repeat split. cbn. lia. Qed.

(** ** The timeout *)

(** C7: in either mode, a cycle hands the timeout error to the observer
    exactly when it increments [confirmationChecks] and the incremented
    count equals [timeout]: never while the count is still different
    from the budget, below it or past it. *)
Theorem C7_timeout_at_exact_budget txh w :
  (forall a,
     let res := socketCallback txh a w in
     timeout_fired (effects_of res) = true <->
     confirmationChecks (this (world_of res)) = confirmationChecks (this w) + 1 /\
     confirmationChecks (this (world_of res)) = timeout (this w)) /\
  (forall a,
     let res := httpCallback txh a w in
     timeout_fired (effects_of res) = true <->
     confirmationChecks (this (world_of res)) = confirmationChecks (this w) + 1 /\
     confirmationChecks (this (world_of res)) = timeout (this w)).
Proof.
  destruct w as [[p t c bn lb cf ck ob iv] sb tk].
  split; intros a; destruct a; cbv zeta; unfold timeout_fired;
    run_code; to_prop; cbn; split; intros; try discriminate;
    try reflexivity; try lia; try (split; [reflexivity | assumption]).
Qed.

(** Boundary run of the poll mode with a budget of three checks and no
    receipt: nothing after two ticks, the timeout error in the third
    tick, no tick delivered after it. *)
Example timeout_boundary :
  effects_of (run [Sample.quiet; Sample.quiet] (started Sample.tx "HttpProvider" 3 1))
  = [ReceiptExecute "0xtx"; ReceiptExecute "0xtx"] /\
  effects_of (run [Sample.quiet; Sample.quiet; Sample.quiet; Sample.quiet]
                (started Sample.tx "HttpProvider" 3 1))
  = [ReceiptExecute "0xtx"; ReceiptExecute "0xtx"; ReceiptExecute "0xtx";
     ClearInterval; ObserverError TimeoutError None 0 3].
Proof. split; reflexivity. Qed.

(** ** Push mode: repeated announcements *)

(** C10: a push-mode cycle whose head number is already recorded in
    [blockNumbers], delivered without subscription error and with a
    receipt call that resolves, does perform the receipt call, then
    leaves the whole instance and both resources as they were and calls
    none of [next], [error], [complete]. *)
Theorem C10_seen_head_changes_nothing txh a w receipt :
  newHeadError a = None ->
  newHeadReceipt a = Resolved receipt ->
  includes (blockNumbers (this w)) (number (newHead a)) = true ->
  let res := socketCallback txh a w in
  world_of res = w /\
  filter is_callback (effects_of res) = [] /\
  effects_of res = [ReceiptExecute txh].
Proof.
  destruct a as [e h rp], w as [[p t c bn lb cf ck ob iv] sb tk].
  step_code. intros -> -> H. step_code. rewrite H. repeat split.
Qed.

Lemma C10_seen_head_changes_nothing_witness :
  world_of (socketCallback Sample.tx (Sample.mined_head 10) Sample.seen10)
  = Sample.seen10 /\
  filter is_callback
    (effects_of (socketCallback Sample.tx (Sample.mined_head 10) Sample.seen10))
  = [] /\
  effects_of (socketCallback Sample.tx (Sample.mined_head 10) Sample.seen10)
  = [ReceiptExecute Sample.tx].
Proof.
  apply (C10_seen_head_changes_nothing Sample.tx (Sample.mined_head 10)
           Sample.seen10 (Some Sample.receipt)); reflexivity.
Defined.

(** ** Poll mode: which block counts as a confirmation *)

(** C1 (amended): in a poll-mode tick with a receipt and with
    [lastBlock] set, the block fetched for the receipt's block hash is
    accepted (confirmations incremented, [next] called, [lastBlock]
    replaced) if and only if its [parentHash] equals [lastBlock.hash]
    and its number differs from [lastBlock.number]; otherwise the tick
    keeps [confirmations] and [lastBlock] and calls no [next]. *)
Theorem C1_accepts_continuous_block_of_other_height txh a w last receipt block :
  lastBlock (this w) = Some last ->
  tickReceipt a = Resolved (Some receipt) ->
  tickBlock a = Resolved (Some block) ->
  let res := httpCallback txh a w in
  (accepted w res receipt block <-> extends_last last block) /\
  (~ extends_last last block ->
   confirmations (this (world_of res)) = confirmations (this w) /\
   lastBlock (this (world_of res)) = lastBlock (this w) /\
   filter is_next (effects_of res) = []).
Proof.
  destruct a as [rp bp], w as [[p t c bn lb cf ck ob iv] sb tk],
    last as [lh lp ln], block as [bh bp' bn'].
  unfold accepted, extends_last. step_code. intros -> -> ->.
  cbv [hash parentHash number].
  run_code; to_prop; cbv [hash parentHash number] in *; cbn;
    (split; [split |]); intros;
    repeat match goal with
           | H : _ /\ _ |- _ => destruct H
           | H : _ \/ _ |- _ => destruct H
           end; to_prop;
    try tauto; try lia; try congruence; auto.
Qed.

Lemma C1_accepts_continuous_block_of_other_height_witness :
  (accepted Sample.after_block5
     (httpCallback Sample.tx (Sample.tick Sample.block6) Sample.after_block5)
     (Sample.receipt_in Sample.block6) Sample.block6
   <-> extends_last Sample.block5 Sample.block6) /\
  (~ extends_last Sample.block5 Sample.block6 ->
   confirmations (this (world_of
     (httpCallback Sample.tx (Sample.tick Sample.block6) Sample.after_block5)))
   = confirmations (this Sample.after_block5) /\
   lastBlock (this (world_of
     (httpCallback Sample.tx (Sample.tick Sample.block6) Sample.after_block5)))
   = lastBlock (this Sample.after_block5) /\
   filter is_next (effects_of
     (httpCallback Sample.tx (Sample.tick Sample.block6) Sample.after_block5))
   = []).
Proof.
  apply (C1_accepts_continuous_block_of_other_height Sample.tx
           (Sample.tick Sample.block6) Sample.after_block5 Sample.block5
           (Sample.receipt_in Sample.block6) Sample.block6); reflexivity.
Defined.

(** The claim as stated asks for a strictly taller block. After
    [block5] was accepted, a tick that finds the transaction in
    [block3], whose parent hash is [block5]'s hash and whose number is
    3, is accepted although 3 is not greater than 5. *)
Lemma C1_counterexample :
  lastBlock (this Sample.after_block5) = Some Sample.block5 /\
  parentHash Sample.block3 = hash Sample.block5 /\
  ~ number Sample.block3 > number Sample.block5 /\
  accepted Sample.after_block5
    (httpCallback Sample.tx (Sample.tick Sample.block3) Sample.after_block5)
    (Sample.receipt_in Sample.block3) Sample.block3 /\
  confirmations (this (world_of
    (httpCallback Sample.tx (Sample.tick Sample.block3) Sample.after_block5))) = 2.
Proof.
  unfold accepted. repeat split; try reflexivity.
  - cbn. lia.
  - cbn. auto.
Qed.

(** ** Push mode: the receipt call and the seen numbers *)

Lemma includes_false l n : includes l n = false -> ~ In n l.
Proof.
  unfold includes. induction l as [| x l IH]; cbn; [tauto |].
  intros H [-> | Hin].
  - rewrite Z.eqb_refl in H. discriminate.
  - apply orb_false_iff in H. tauto.
Qed.

Lemma NoDup_snoc (l : list Z) n : NoDup l -> ~ In n l -> NoDup (l ++ [n]).
Proof.
  induction 1 as [| x l Hx Hl IH]; cbn; intros Hn.
  - constructor; [tauto | constructor].
  - constructor.
    + rewrite in_app_iff. cbn. intuition congruence.
    + apply IH. tauto.
Qed.

(** What a push-mode cycle does to the instance: nothing, or it counts
    the head, whose number was not recorded yet. *)
Lemma socketCallback_counts txh a w :
  let w' := world_of (socketCallback txh a w) in
  this w' = this w \/
  (includes (blockNumbers (this w)) (number (newHead a)) = false /\
   blockNumbers (this w') = blockNumbers (this w) ++ [number (newHead a)] /\
   confirmationChecks (this w') = confirmationChecks (this w) + 1 /\
   confirmations (this w) <= confirmations (this w') <= confirmations (this w) + 1).
Proof.
  destruct a as [e h rp], w as [[p t c bn lb cf ck ob iv] sb tk].
  cbv zeta. run_code; to_prop;
    solve [left; reflexivity
          | right; repeat split; (assumption || reflexivity || lia)].
Qed.

Lemma httpCallback_blockNumbers txh a w :
  blockNumbers (this (world_of (httpCallback txh a w))) = blockNumbers (this w).
Proof.
  destruct a as [rp bp], w as [[p t c bn lb cf ck ob iv] sb tk].
  run_code; reflexivity.
Qed.

Lemma NoDup_deliver k w :
  NoDup (blockNumbers (this w)) ->
  NoDup (blockNumbers (this (world_of (deliver k w)))).
Proof.
  intros H. destruct k as [a | a]; cbn [deliver].
  - destruct (subscribed w) as [txh |]; [| exact H].
    destruct (socketCallback_counts txh a w) as [E | (Hn & E & _)].
    + rewrite E. exact H.
    + rewrite E. apply NoDup_snoc; [exact H | apply includes_false, Hn].
  - destruct (ticking w) as [txh |]; [| exact H].
    rewrite httpCallback_blockNumbers. exact H.
Qed.

Lemma NoDup_run cs : forall w,
  NoDup (blockNumbers (this w)) ->
  NoDup (blockNumbers (this (world_of (run cs w)))).
Proof.
  induction cs as [| k cs IH]; intros w H; [exact H |].
  rewrite run_cons. unfold world_of at 1. cbn [fst snd].
  apply IH, NoDup_deliver, H.
Qed.

(** C2 (amended): in push mode every announcement delivered without a
    subscription error makes exactly one receipt call, whether or not
    its number is already in [blockNumbers]. What happens at most once
    per block number is the counting: a cycle either leaves the
    instance unchanged or appends its number, not recorded before, to
    [blockNumbers] and increments [confirmationChecks]; over any
    lifetime [blockNumbers] never holds a number twice. *)
Theorem C2_every_head_fetches_and_counts_once txh :
  (forall a w,
     newHeadError a = None ->
     count is_receipt_fetch (effects_of (socketCallback txh a w)) = 1%nat) /\
  (forall a w,
     let w' := world_of (socketCallback txh a w) in
     this w' = this w \/
     (includes (blockNumbers (this w)) (number (newHead a)) = false /\
      blockNumbers (this w') = blockNumbers (this w) ++ [number (newHead a)] /\
      confirmationChecks (this w') = confirmationChecks (this w) + 1)) /\
  (forall p t c cs,
     NoDup (blockNumbers (this (world_of (run cs (started txh p t c)))))).
Proof.
  split; [| split].
  - intros [e h rp] [[p t c bn lb cf ck ob iv] sb tk].
    step_code. intros ->. unfold count. run_code; reflexivity.
  - intros a w. destruct (socketCallback_counts txh a w) as [E | (Hn & E & Hk & _)];
      [left | right]; auto.
  - intros p t c cs. apply NoDup_run.
    unfold started, new_world, constructor, onSubscribe.
    run_code; constructor.
Qed.

Lemma C2_every_head_fetches_and_counts_once_witness :
  count is_receipt_fetch
    (effects_of (socketCallback Sample.tx (Sample.mined_head 10) Sample.seen10))
  = 1%nat.
Proof.
  apply (proj1 (C2_every_head_fetches_and_counts_once Sample.tx)
           (Sample.mined_head 10) Sample.seen10).
  reflexivity.
Defined.

(** The claim as stated has a recorded number ignored before any
    receipt call. Here head 10 is announced twice: its number is in
    [blockNumbers] when the second announcement arrives, the second
    cycle makes a receipt call all the same, and the run makes two. *)
Lemma C2_counterexample :
  includes (blockNumbers (this Sample.seen10)) 10 = true /\
  count is_receipt_fetch
    (effects_of (deliver (Sample.pending 10) Sample.seen10)) = 1%nat /\
  count is_receipt_fetch
    (effects_of (run [Sample.pending 10; Sample.pending 10]
                   (started Sample.tx "WebsocketProvider" 5 2))) = 2%nat.
Proof. repeat split. Qed.

(** ** Where the confirmation state comes from *)

(** C9 (amended): the confirmation state is set to empty by the
    constructor, and neither [observe] nor the start of the stream
    touches it. The first cycle after [observe] on a fresh tracker
    therefore sees the empty state; the first cycle after a later
    [observe] on the same instance sees the state the instance had
    before that call. *)
Theorem C9_observe_keeps_confirmation_state :
  (forall txh p t c,
     confirmation_state (this (started txh p t c)) = (0, 0, [], None)) /\
  (forall txh w,
     confirmation_state (this (world_of ((observe txh ;; onSubscribe txh) w)))
     = confirmation_state (this w)).
Proof.
  split.
  - intros txh p t c. unfold started, new_world, constructor, confirmation_state.
    run_code; reflexivity.
  - intros txh [[p t c bn lb cf ck ob iv] sb tk]. unfold confirmation_state.
    run_code; reflexivity.
Qed.

(** The claim as stated has every [observe] start from the empty
    state. A poll tracker with a target of one confirmation completes
    in its first tick; observing again on that instance starts the new
    stream with one confirmation, one check and [lastBlock] set. *)
Lemma C9_counterexample :
  ticking (world_of (run [Fire (Sample.tick Sample.block5)]
                       (started Sample.tx "HttpProvider" 5 1))) = None /\
  confirmation_state
    (this (world_of ((observe Sample.tx ;; onSubscribe Sample.tx)
       (world_of (run [Fire (Sample.tick Sample.block5)]
                    (started Sample.tx "HttpProvider" 5 1))))))
  = (1, 1, [], Some Sample.block5) /\
  confirmation_state
    (this (world_of ((observe Sample.tx ;; onSubscribe Sample.tx)
       (world_of (run [Fire (Sample.tick Sample.block5)]
                    (started Sample.tx "HttpProvider" 5 1))))))
  <> (0, 0, [], None).
Proof. repeat split. discriminate. Qed.

(** ** Push mode: the happy path *)

(** C8: a push tracker with a target of two confirmations and a budget
    above two checks, given heads 10, 11 and 12 with a receipt from the
    first one on, calls [next] with 1 confirmation, [next] with 2
    confirmations, unsubscribes and calls [complete], and nothing else:
    the third head is not processed (no receipt call for it). *)
Theorem C8_push_happy_path p t txh h10 h11 h12 r1 r2 r3 :
  isSocketBasedProvider (constructor p t 2) = true ->
  2 < t ->
  number h10 = 10 -> number h11 = 11 -> number h12 = 12 ->
  let res := run [Announce (mkNewHead None h10 (Resolved (Some r1)));
                  Announce (mkNewHead None h11 (Resolved (Some r2)));
                  Announce (mkNewHead None h12 (Resolved (Some r3)))]
                 (started txh p t 2) in
  effects_of res = [ReceiptExecute txh; ObserverNext r1 1;
                    ReceiptExecute txh; ObserverNext r2 2;
                    SubscriptionUnsubscribe; ObserverComplete] /\
  subscribed (world_of res) = None /\
  confirmations (this (world_of res)) = 2 /\
  blockNumbers (this (world_of res)) = [10; 11].
Proof.
  intros Hp Ht E10 E11 E12.
  assert (T1 : (1 =? t) = false) by (apply Z.eqb_neq; lia).
  assert (T2 : (2 =? t) = false) by (apply Z.eqb_neq; lia).
  unfold started, new_world, constructor, onSubscribe in *.
  cbv [isSocketBasedProvider provider] in Hp.
  cbn [run]. step_code. cbv [isSocketBasedProvider provider]. rewrite Hp.
  repeat (progress
    (step_code; rewrite ?E10, ?E11, ?E12; cbn [includes existsb orb negb];
     change (0 + 1) with 1; change (1 + 1) with 2;
     change (1 =? 2) with false; change (2 =? 2) with true;
     change (11 =? 10) with false; rewrite ?T1, ?T2)).
  repeat split.
Qed.

Lemma C8_push_happy_path_witness :
  effects_of (run [Sample.mined 10; Sample.mined 11; Sample.mined 12]
                (started Sample.tx "WebsocketProvider" 50 2))
  = [ReceiptExecute Sample.tx; ObserverNext Sample.receipt 1;
     ReceiptExecute Sample.tx; ObserverNext Sample.receipt 2;
     SubscriptionUnsubscribe; ObserverComplete].
Proof.
  apply (C8_push_happy_path "WebsocketProvider" 50 Sample.tx
           (Sample.head 10) (Sample.head 11) (Sample.head 12)
           Sample.receipt Sample.receipt Sample.receipt);
    (reflexivity || lia).
Defined.

(** ** Terminal calls *)

(** C3: the cycle that reaches the target and the budget at once calls
    both [complete] and [error]. With a target of one confirmation and
    a budget of one check, the first cycle with a receipt calls [next],
    releases the resource, calls [complete], then goes on to the
    timeout test and calls [error] with the timeout error; in poll mode
    and in push mode alike. *)
Theorem C3_complete_then_error_in_one_cycle :
  effects_of (run [Fire (Sample.tick Sample.block5)]
                (started Sample.tx "HttpProvider" 1 1))
  = [ReceiptExecute Sample.tx; BlockExecute "0xb5";
     ObserverNext Sample.receipt 1;
     ClearInterval; ObserverComplete;
     ClearInterval; ObserverError TimeoutError (Some Sample.receipt) 1 1] /\
  effects_of (run [Sample.mined 10] (started Sample.tx "WebsocketProvider" 1 1))
  = [ReceiptExecute Sample.tx;
     ObserverNext Sample.receipt 1;
     SubscriptionUnsubscribe; ObserverComplete;
     ObserverError TimeoutError (Some Sample.receipt) 1 1;
     SubscriptionUnsubscribe] /\
  count is_terminal
    (effects_of (run [Fire (Sample.tick Sample.block5)]
                   (started Sample.tx "HttpProvider" 1 1))) = 2%nat.
Proof. repeat split. Qed.

(** On a tracker that has not reached its target, a cycle in which
    the target and the budget are not reached together makes at most
    one terminal call. *)
Lemma one_terminal_call_per_cycle k w :
  confirmations (this w) <> blockConfirmations (this w) ->
  timeout (this w) <> confirmationChecks (this w) + 1 \/
  blockConfirmations (this w) <> confirmations (this w) + 1 ->
  (count is_terminal (effects_of (deliver k w)) <= 1)%nat.
Proof.
  destruct k as [[e h rp] | [rp bp]], w as [[p t c bn lb cf ck ob iv] sb tk];
    step_code; intros H0 H; unfold count; run_code; to_prop; cbn;
    try lia.
Qed.

(** ** Errors and the release of the resource *)

(** Poll mode: every cycle that calls [error] has cleared the timer
    before, and a push-mode cycle that calls [error] for the timeout
    unsubscribes. An error caught from a collaborator is always handed
    over with the receipt absent. *)
Lemma error_paths_that_release txh w :
  (forall a,
     let res := httpCallback txh a w in
     existsb is_error (effects_of res) = true ->
     existsb is_release (effects_of res) = true /\
     (interval (this w) = true -> ticking (world_of res) = None)) /\
  (forall a,
     let res := socketCallback txh a w in
     timeout_fired (effects_of res) = true ->
     existsb is_release (effects_of res) = true /\
     subscribed (world_of res) = None) /\
  (forall k e r c n,
     In (ObserverError e r c n) (effects_of (deliver k w)) ->
     e <> TimeoutError -> r = None).
Proof.
  destruct w as [[p t c bn lb cf ck ob iv] sb tk].
  split; [| split].
  - intros [rp bp]. cbv zeta. run_code; cbn; intros; try discriminate;
      split; intros; subst; try discriminate; reflexivity.
  - intros [e h rp]. cbv zeta. unfold timeout_fired.
    run_code; cbn; intros; try discriminate; split; reflexivity.
  - intros [[e h rp] | [rp bp]] e' r c' n; run_code; cbn; intros H Hne;
      repeat match goal with
             | H : _ \/ _ |- _ => destruct H
             | H : False |- _ => destruct H
             | H : _ = ObserverError _ _ _ _ |- _ => inversion H; clear H; subst
             end; try discriminate; try reflexivity; try congruence.
Qed.

(** C4: a push-mode cycle that fails, by a subscription error or by a
    rejected receipt call, calls [error] with the receipt absent and
    does not unsubscribe: the subscription stays live and the next head
    is processed, here up to a second [error] call. *)
Theorem C4_push_failure_keeps_subscription :
  effects_of (run [Sample.broken] (started Sample.tx "WebsocketProvider" 5 2))
  = [ObserverError (Rejected "connection lost") None 0 0] /\
  subscribed (world_of (run [Sample.broken]
                          (started Sample.tx "WebsocketProvider" 5 2)))
  = Some Sample.tx /\
  effects_of (run
                [Announce (mkNewHead None (Sample.head 10) (Failed "bad gateway"));
                 Sample.broken; Sample.mined 11]
                (started Sample.tx "WebsocketProvider" 5 2))
  = [ReceiptExecute Sample.tx;
     ObserverError (Rejected "bad gateway") None 0 0;
     ObserverError (Rejected "connection lost") None 0 0;
     ReceiptExecute Sample.tx;
     ObserverNext Sample.receipt 1].
Proof. repeat split. Qed.

(** ** [stop] *)

(** Calling [stop] a second time leaves the tracker and its resources
    as the first call left them, and [stop] never calls the observer. *)
Lemma stop_twice_same_world w :
  world_of (stop (world_of (stop w))) = world_of (stop w) /\
  outcome_of (stop (world_of (stop w))) = outcome_of (stop w) /\
  filter is_callback (effects_of (stop w)) = [].
Proof.
  destruct w as [[p t c bn lb cf ck ob iv] sb tk].
  step_code.
  destruct (isSocketBasedProvider (mkObserver p t c bn lb cf ck ob iv)) eqn:E,
    ob, iv; step_code; rewrite ?E; step_code; repeat split.
Qed.

(** Whether or not [observe] ran, [stop] releases the resource of
    the mode and then throws. *)
Lemma stop_releases_then_throws w :
  outcome_of (stop w) = Throw (TypeError "unsubscribe") /\
  (isSocketBasedProvider (this w) = true -> subscribed (world_of (stop w)) = None) /\
  (isSocketBasedProvider (this w) = false -> interval (this w) = true ->
   ticking (world_of (stop w)) = None).
Proof.
  destruct w as [[p t c bn lb cf ck ob iv] sb tk].
  step_code.
  destruct (isSocketBasedProvider _) eqn:E; step_code; repeat split;
    intros; subst; (reflexivity || discriminate).
Qed.

(** C5: on a tracker on which [observe] has not been called,
    [this.observable] is still [false] and [stop] throws a TypeError
    after releasing the resource, at the first call and at the second
    call alike. *)
Theorem C5_stop_before_observe_throws p t c :
  outcome_of (stop (new_world p t c)) = Throw (TypeError "unsubscribe") /\
  outcome_of (stop (world_of (stop (new_world p t c))))
  = Throw (TypeError "unsubscribe").
Proof.
  unfold new_world, constructor. step_code.
  destruct (isSocketBasedProvider (mkObserver p t c [] None 0 0 false false))
    eqn:E; step_code; rewrite ?E; step_code; split; reflexivity.
Qed.

(** * Further properties of the class *)

(** ** Runs, cycle by cycle *)

Lemma world_of_result {A} (o : Outcome A) w l : world_of (o, w, l) = w.
Proof. reflexivity. Qed.

Lemma effects_of_result {A} (o : Outcome A) w l : effects_of (o, w, l) = l.
Proof. reflexivity. Qed.

Lemma run_cons_world c cs w :
  world_of (run (c :: cs) w) = world_of (run cs (world_of (deliver c w))).
Proof. rewrite run_cons. reflexivity. Qed.

Lemma run_cons_effects c cs w :
  effects_of (run (c :: cs) w) =
  effects_of (deliver c w) ++ effects_of (run cs (world_of (deliver c w))).
Proof. rewrite run_cons. reflexivity. Qed.

Lemma run_app_world cs1 : forall cs2 w,
  world_of (run (cs1 ++ cs2) w) = world_of (run cs2 (world_of (run cs1 w))).
Proof.
  induction cs1 as [| c cs1 IH]; intros cs2 w; [reflexivity |].
  cbn [app]. rewrite !run_cons_world. apply IH.
Qed.

Lemma run_app_effects cs1 : forall cs2 w,
  effects_of (run (cs1 ++ cs2) w) =
  effects_of (run cs1 w) ++ effects_of (run cs2 (world_of (run cs1 w))).
Proof.
  induction cs1 as [| c cs1 IH]; intros cs2 w; [reflexivity |].
  cbn [app]. rewrite !run_cons_effects, run_cons_world, IH, app_assoc.
  reflexivity.
Qed.

(** ** What a cycle may change *)

Lemma deliver_frame k w :
  let w' := world_of (deliver k w) in
  configuration (this w') = configuration (this w) /\
  observable (this w') = observable (this w) /\
  interval (this w') = interval (this w) /\
  confirmations (this w) <= confirmations (this w') /\
  confirmationChecks (this w) <= confirmationChecks (this w') /\
  exists added, blockNumbers (this w') = blockNumbers (this w) ++ added.
Proof.
  destruct k as [[e h rp] | [rp bp]], w as [[p t c bn lb cf ck ob iv] sb tk];
    cbv zeta; unfold configuration; run_code;
    repeat split; try lia;
    solve [exists []; symmetry; apply app_nil_r | eexists; reflexivity].
Qed.

(** X1: whatever is announced or fired, and in whatever state the
    tracker is, a run of cycles never changes the configuration
    ([provider], [timeout], [blockConfirmations]) nor the [observable]
    and [interval] fields, never decreases [confirmations] or
    [confirmationChecks], and only appends to [blockNumbers]. *)
Theorem X1_cycles_keep_configuration_and_only_count_up cs : forall w,
  let w' := world_of (run cs w) in
  configuration (this w') = configuration (this w) /\
  observable (this w') = observable (this w) /\
  interval (this w') = interval (this w) /\
  confirmations (this w) <= confirmations (this w') /\
  confirmationChecks (this w) <= confirmationChecks (this w') /\
  exists added, blockNumbers (this w') = blockNumbers (this w) ++ added.
Proof.
  induction cs as [| k cs IH]; intros w; cbv zeta.
  - cbn. repeat split; try lia. exists []. symmetry. apply app_nil_r.
  - rewrite run_cons_world.
    destruct (deliver_frame k w) as (A1 & A2 & A3 & A4 & A5 & l1 & A6).
    destruct (IH (world_of (deliver k w))) as (B1 & B2 & B3 & B4 & B5 & l2 & B6).
    cbv zeta in *.
    rewrite B1, B2, B3, A1, A2, A3. repeat split; try lia.
    exists (l1 ++ l2). rewrite B6, A6, app_assoc. reflexivity.
Qed.

(** ** Counting checks *)

(** X2: [confirmationChecks] counts the cycles that get through. A
    poll tick adds one check unless it ends in the [catch] block; a
    push cycle adds one check unless it ends in the [catch] block or
    announces a number already in [blockNumbers]. In those cases the
    count stays as it was. *)
Theorem X2_checks_count_cycles_that_get_through txh w :
  (forall a,
     let res := httpCallback txh a w in
     confirmationChecks (this (world_of res)) =
     if existsb is_failure (effects_of res)
     then confirmationChecks (this w)
     else confirmationChecks (this w) + 1) /\
  (forall a,
     let res := socketCallback txh a w in
     confirmationChecks (this (world_of res)) =
     if existsb is_failure (effects_of res)
        || includes (blockNumbers (this w)) (number (newHead a))
     then confirmationChecks (this w)
     else confirmationChecks (this w) + 1).
Proof.
  destruct w as [[p t c bn lb cf ck ob iv] sb tk].
  split; intros a; destruct a; cbv zeta; run_code;
    repeat match goal with
           | H : includes ?l ?n = _, H' : context [includes ?l ?n] |- _ =>
               lazymatch H' with H => fail | _ => rewrite H in H' end
           end;
    cbn in *; try discriminate; to_prop; try congruence; reflexivity.
Qed.

(** ** What [error] is called with *)

(** X3: every [error] call of a cycle reports the counts the tracker
    has at the end of that cycle, and a timeout error reports a check
    count equal to the budget. *)
Theorem X3_error_reports_final_counts k w e r c n :
  In (ObserverError e r c n) (effects_of (deliver k w)) ->
  c = confirmations (this (world_of (deliver k w))) /\
  n = confirmationChecks (this (world_of (deliver k w))) /\
  (e = TimeoutError -> n = timeout (this w)).
Proof.
  destruct k as [[e' h rp] | [rp bp]], w as [[p t c0 bn lb cf ck ob iv] sb tk];
    run_code; to_prop; cbn; intros Hin;
    repeat match goal with
           | H : _ \/ _ |- _ => destruct H
           | H : False |- _ => destruct H
           | H : _ = ObserverError _ _ _ _ |- _ => inversion H; clear H; subst
           end; try discriminate;
    repeat split; try reflexivity; try congruence; intros; try discriminate.
Qed.

Lemma X3_error_reports_final_counts_witness :
  0 = confirmations (this (world_of
        (deliver Sample.broken (started Sample.tx "WebsocketProvider" 5 2)))) /\
  0 = confirmationChecks (this (world_of
        (deliver Sample.broken (started Sample.tx "WebsocketProvider" 5 2)))) /\
  (Rejected "connection lost" = TimeoutError ->
   0 = timeout (this (started Sample.tx "WebsocketProvider" 5 2))).
Proof.
  apply (X3_error_reports_final_counts Sample.broken
           (started Sample.tx "WebsocketProvider" 5 2)
           (Rejected "connection lost") None 0 0).
  simpl. left. reflexivity.
Defined.

(** ** Failures *)

(** X4: a push-mode cycle that fails changes nothing at all, neither
    the instance nor the subscription. Delivered with a subscription
    error it makes no receipt call and only calls [error]; with a
    rejected receipt call it calls [error] right after that call. Both
    times the receipt is absent and the counts are the current ones. *)
Theorem X4_push_failure_changes_nothing txh a w :
  (forall m,
     newHeadError a = Some m ->
     socketCallback txh a w =
     (Return tt, w,
      [ObserverError (Rejected m) None
         (confirmations (this w)) (confirmationChecks (this w))])) /\
  (forall m,
     newHeadError a = None ->
     newHeadReceipt a = Failed m ->
     socketCallback txh a w =
     (Return tt, w,
      [ReceiptExecute txh;
       ObserverError (Rejected m) None
         (confirmations (this w)) (confirmationChecks (this w))])).
Proof.
  destruct a as [e h rp], w as [[p t c bn lb cf ck ob iv] sb tk].
  split; intros m; step_code; intros; subst; reflexivity.
Qed.

Lemma X4_push_failure_changes_nothing_witness :
  socketCallback Sample.tx
    (mkNewHead (Some "connection lost") (Sample.head 0) (Resolved None))
    Sample.seen10
  = (Return tt, Sample.seen10,
     [ObserverError (Rejected "connection lost") None
        (confirmations (this Sample.seen10))
        (confirmationChecks (this Sample.seen10))]).
Proof.
  apply (proj1 (X4_push_failure_changes_nothing Sample.tx
           (mkNewHead (Some "connection lost") (Sample.head 0) (Resolved None))
           Sample.seen10)).
  reflexivity.
Defined.

(** X5: a poll tick fails when the receipt call rejects, when the
    block call rejects, or when a previous block is recorded and the
    block call yields [null]. Each time the instance is left as it was
    (the tick is not counted), [clearInterval(this.interval)] is called
    and then [error], with the receipt absent and the current counts. *)
Theorem X5_poll_failure_clears_timer txh a w :
  let cleared :=
    mkWorld (this w) (subscribed w)
            (if interval (this w) then None else ticking w) in
  let report e :=
    ObserverError e None (confirmations (this w)) (confirmationChecks (this w)) in
  (forall m,
     tickReceipt a = Failed m ->
     httpCallback txh a w =
     (Return tt, cleared,
      [ReceiptExecute txh; ClearInterval; report (Rejected m)])) /\
  (forall r m,
     tickReceipt a = Resolved (Some r) ->
     tickBlock a = Failed m ->
     httpCallback txh a w =
     (Return tt, cleared,
      [ReceiptExecute txh; BlockExecute (blockHash r); ClearInterval;
       report (Rejected m)])) /\
  (forall r last,
     tickReceipt a = Resolved (Some r) ->
     lastBlock (this w) = Some last ->
     tickBlock a = Resolved None ->
     httpCallback txh a w =
     (Return tt, cleared,
      [ReceiptExecute txh; BlockExecute (blockHash r); ClearInterval;
       report (TypeError "parentHash")])).
Proof.
  destruct a as [rp bp], w as [[p t c bn lb cf ck ob iv] sb tk].
  cbv zeta. repeat split; intros; step_code; subst; run_code; reflexivity.
Qed.

Lemma X5_poll_failure_clears_timer_witness :
  httpCallback Sample.tx (mkTick (Failed "bad gateway") (Resolved None))
    Sample.after_block5
  = (Return tt,
     mkWorld (this Sample.after_block5) (subscribed Sample.after_block5)
       (if interval (this Sample.after_block5) then None
        else ticking Sample.after_block5),
     [ReceiptExecute Sample.tx; ClearInterval;
      ObserverError (Rejected "bad gateway") None
        (confirmations (this Sample.after_block5))
        (confirmationChecks (this Sample.after_block5))]).
Proof.
  apply (proj1 (X5_poll_failure_clears_timer Sample.tx
           (mkTick (Failed "bad gateway") (Resolved None)) Sample.after_block5)).
  reflexivity.
Defined.

(** ** Poll mode: the first block and the block call *)

(** X6: while no previous block is recorded, a poll tick that finds a
    receipt counts a confirmation without any test on the block: it
    asks for the block of the receipt's hash, stores whatever comes
    back in [lastBlock] (also [null]), increments [confirmations],
    calls [next] once with the new count and counts the check. *)
Theorem X6_first_block_is_taken_untested txh a w receipt block :
  lastBlock (this w) = None ->
  tickReceipt a = Resolved (Some receipt) ->
  tickBlock a = Resolved block ->
  let res := httpCallback txh a w in
  confirmations (this (world_of res)) = confirmations (this w) + 1 /\
  lastBlock (this (world_of res)) = block /\
  confirmationChecks (this (world_of res)) = confirmationChecks (this w) + 1 /\
  next_confirmations (effects_of res) = [confirmations (this w) + 1] /\
  firstn 3 (effects_of res) =
  [ReceiptExecute txh; BlockExecute (blockHash receipt);
   ObserverNext receipt (confirmations (this w) + 1)].
Proof.
  destruct a as [rp bp], w as [[p t c bn lb cf ck ob iv] sb tk].
  step_code. intros -> -> ->. run_code; repeat split.
Qed.

Lemma X6_first_block_is_taken_untested_witness :
  confirmations (this (world_of
    (httpCallback Sample.tx (Sample.tick Sample.block3)
       (started Sample.tx "HttpProvider" 10 5)))) = 0 + 1 /\
  lastBlock (this (world_of
    (httpCallback Sample.tx (Sample.tick Sample.block3)
       (started Sample.tx "HttpProvider" 10 5)))) = Some Sample.block3.
Proof.
  pose proof (X6_first_block_is_taken_untested Sample.tx
                (Sample.tick Sample.block3)
                (started Sample.tx "HttpProvider" 10 5)
                (Sample.receipt_in Sample.block3) (Some Sample.block3)
                eq_refl eq_refl eq_refl) as H.
  cbv zeta in H. destruct H as (H1 & H2 & _). split; [exact H1 | exact H2].
Defined.

(** X7: a poll tick asks for a block exactly when its receipt call
    yields a receipt, once, and for the block hash that receipt names;
    a push cycle never asks for a block. *)
Theorem X7_block_call_follows_the_receipt txh w :
  (forall a,
     filter is_block_fetch (effects_of (httpCallback txh a w)) =
     match tickReceipt a with
     | Resolved (Some receipt) => [BlockExecute (blockHash receipt)]
     | _ => []
     end) /\
  (forall a, filter is_block_fetch (effects_of (socketCallback txh a w)) = []).
Proof.
  destruct w as [[p t c bn lb cf ck ob iv] sb tk].
  split; intros a; destruct a; run_code; reflexivity.
Qed.

(** ** The shape of an observation *)

Lemma in_mode_started txh p t c : in_mode txh (started txh p t c).
Proof.
  unfold in_mode, started, new_world, constructor. step_code.
  destruct (isSocketBasedProvider (mkObserver p t c [] None 0 0 true false))
    eqn:E.
  - step_code.
    replace (isSocketBasedProvider (mkObserver p t c [] None 0 0 true false))
      with true.
    auto.
  - step_code.
    replace (isSocketBasedProvider (mkObserver p t c [] None 0 0 true true))
      with false by (symmetry; exact E).
    auto.
Qed.

Lemma isSocketBasedProvider_deliver k w :
  isSocketBasedProvider (this (world_of (deliver k w)))
  = isSocketBasedProvider (this w).
Proof.
  destruct (deliver_frame k w) as (H & _). unfold configuration in H.
  unfold isSocketBasedProvider. inversion H as [[Hp Ht Hc]]. rewrite Hp.
  reflexivity.
Qed.

Ltac use_cases :=
  repeat match goal with
         | H : _ \/ _ |- _ => destruct H
         | H : _ /\ _ |- _ => destruct H
         end.

Lemma isSocketBasedProvider_started txh p t c :
  isSocketBasedProvider (this (started txh p t c))
  = isSocketBasedProvider (constructor p t c).
Proof.
  unfold started, new_world, constructor. step_code.
  destruct (isSocketBasedProvider (mkObserver p t c [] None 0 0 true false));
    reflexivity.
Qed.

Lemma in_mode_deliver txh k w :
  in_mode txh w -> in_mode txh (world_of (deliver k w)).
Proof.
  unfold in_mode. rewrite isSocketBasedProvider_deliver.
  destruct (isSocketBasedProvider (this w));
    destruct k as [[e h rp] | [rp bp]], w as [[p t c bn lb cf ck ob iv] sb tk];
    step_code; intros (Ho & H1 & H2); use_cases; subst;
    run_code; repeat split; auto; try discriminate.
Qed.

Lemma counts_agree_deliver txh k w :
  in_mode txh w -> counts_agree w -> counts_agree (world_of (deliver k w)).
Proof.
  unfold in_mode, counts_agree. rewrite isSocketBasedProvider_deliver.
  destruct (isSocketBasedProvider (this w));
    destruct k as [[e h rp] | [rp bp]], w as [[p t c bn lb cf ck ob iv] sb tk];
    step_code; intros (Ho & H1 & H2) (Hc & Hm); use_cases; subst;
    run_code; repeat split; try lia; try discriminate; try reflexivity;
    try (rewrite length_app; cbn [List.length]); try lia.
Qed.

(** X8: from a fresh, subscribed tracker and after any sequence of
    cycles, [confirmations] lies between 0 and [confirmationChecks]. In
    push mode [confirmationChecks] is the number of block numbers
    recorded and [lastBlock] is still unset; in poll mode
    [blockNumbers] is still empty. *)
Theorem X8_counters_agree txh p t c cs :
  let w := world_of (run cs (started txh p t c)) in
  0 <= confirmations (this w) <= confirmationChecks (this w) /\
  if isSocketBasedProvider (this w)
  then confirmationChecks (this w) = Z.of_nat (List.length (blockNumbers (this w)))
       /\ lastBlock (this w) = None
  else blockNumbers (this w) = [].
Proof.
  cbv zeta. change (counts_agree (world_of (run cs (started txh p t c)))).
  pose proof (in_mode_started txh p t c) as Hm.
  assert (Hc : counts_agree (started txh p t c)).
  { unfold counts_agree, started, new_world, constructor. step_code.
    destruct (isSocketBasedProvider (mkObserver p t c [] None 0 0 true false))
      eqn:E; step_code.
    - rewrite E. repeat split; lia.
    - replace (isSocketBasedProvider (mkObserver p t c [] None 0 0 true true))
        with false by (symmetry; exact E).
      repeat split; lia. }
  revert Hm Hc. generalize (started txh p t c).
  induction cs as [| k cs IH]; intros w Hm Hc; [exact Hc |].
  rewrite run_cons_world.
  apply IH; [apply in_mode_deliver, Hm | apply (counts_agree_deliver txh), Hc; exact Hm].
Qed.

(** ** How [next] is numbered *)

Lemma next_confirmations_app l1 l2 :
  next_confirmations (l1 ++ l2) = next_confirmations l1 ++ next_confirmations l2.
Proof.
  induction l1 as [| e l1 IH]; [reflexivity |].
  destruct e; cbn; rewrite ?IH; reflexivity.
Qed.

Lemma confirmations_run_le cs : forall w,
  confirmations (this w) <= confirmations (this (world_of (run cs w))).
Proof.
  induction cs as [| k cs IH]; intros w; [cbn; lia |].
  rewrite run_cons_world.
  destruct (deliver_frame k w) as (_ & _ & _ & H & _). cbv zeta in H.
  specialize (IH (world_of (deliver k w))). lia.
Qed.

(** A cycle calls [next] at most once, with the incremented count. *)
Lemma next_confirmations_deliver k w :
  let w' := world_of (deliver k w) in
  (confirmations (this w') = confirmations (this w) /\
   next_confirmations (effects_of (deliver k w)) = []) \/
  (confirmations (this w') = confirmations (this w) + 1 /\
   next_confirmations (effects_of (deliver k w)) = [confirmations (this w) + 1]).
Proof.
  destruct k as [[e h rp] | [rp bp]], w as [[p t c bn lb cf ck ob iv] sb tk];
    cbv zeta; run_code; cbn; solve [left; split; reflexivity | right; split; reflexivity].
Qed.

(** X9: over any sequence of cycles the counts handed to [next] are
    consecutive: they start one above the count the tracker had and
    there are as many [next] calls as [confirmations] grew by. *)
Theorem X9_next_counts_are_consecutive cs : forall w,
  next_confirmations (effects_of (run cs w)) =
  count_from (confirmations (this w) + 1)
    (Z.to_nat (confirmations (this (world_of (run cs w)))
               - confirmations (this w))).
Proof.
  induction cs as [| k cs IH]; intros w.
  - cbn. rewrite Z.sub_diag. reflexivity.
  - rewrite run_cons_effects, run_cons_world, next_confirmations_app, IH.
    pose proof (confirmations_run_le cs (world_of (deliver k w))) as Hge.
    destruct (next_confirmations_deliver k w) as [[E N] | [E N]];
      cbv zeta in E; rewrite N, E.
    + reflexivity.
    + replace (Z.to_nat (confirmations (this (world_of
                 (run cs (world_of (deliver k w))))) - confirmations (this w)))
        with (1 + Z.to_nat (confirmations (this (world_of
                 (run cs (world_of (deliver k w)))))
                 - (confirmations (this w) + 1)))%nat by lia.
      reflexivity.
Qed.

(** ** When [complete] is called *)

Lemma count_app p l1 l2 : count p (l1 ++ l2) = (count p l1 + count p l2)%nat.
Proof. unfold count. rewrite filter_app, length_app. reflexivity. Qed.

Lemma within_target_idle c w :
  within_target c w -> confirmations (this w) = c -> idle w.
Proof.
  intros (_ & _ & _ & Hs & Ht) E. split.
  - destruct (subscribed w); [| reflexivity].
    specialize (Hs ltac:(discriminate)). lia.
  - destruct (ticking w); [| reflexivity].
    destruct (Ht ltac:(discriminate)). lia.
Qed.

Lemma complete_deliver c k w :
  within_target c w -> confirmations (this w) < c ->
  count is_complete (effects_of (deliver k w)) =
  if confirmations (this (world_of (deliver k w))) =? c then 1%nat else 0%nat.
Proof.
  unfold within_target, count.
  destruct k as [[e h rp] | [rp bp]], w as [[p t c0 bn lb cf ck ob iv] sb tk];
    step_code; intros (-> & _) Hlt; run_code; to_prop; cbn;
    try reflexivity; lia.
Qed.

Lemma complete_run c cs : forall w,
  within_target c w -> confirmations (this w) < c ->
  count is_complete (effects_of (run cs w)) =
  if confirmations (this (world_of (run cs w))) =? c then 1%nat else 0%nat.
Proof.
  induction cs as [| k cs IH]; intros w Hw Hlt.
  - cbn. destruct (Z.eqb_spec (confirmations (this w)) c); [lia | reflexivity].
  - rewrite run_cons_effects, run_cons_world, count_app,
      (complete_deliver c k w Hw Hlt).
    pose proof (within_target_deliver c k w Hw) as Hw1.
    destruct (Z.eqb_spec (confirmations (this (world_of (deliver k w)))) c)
      as [E | N].
    + destruct (within_target_idle c _ Hw1 E) as [Hs Ht].
      rewrite (run_idle cs _ Hs Ht). cbn.
      rewrite E, Z.eqb_refl. reflexivity.
    + rewrite IH; [reflexivity | exact Hw1 |].
      destruct Hw1 as (_ & _ & Hb & _). lia.
Qed.

(** ** Calls that end an observation *)

Lemma count_none p l : existsb p l = false -> count p l = 0%nat.
Proof.
  unfold count. induction l as [| e l IH]; [reflexivity |].
  cbn. destruct (p e); [discriminate |]. exact IH.
Qed.

Section OnceThenIdle.
Variable p : Effect -> bool.
Variable good : World -> Prop.
Hypothesis good_deliver :
  forall k w, good w -> good (world_of (deliver k w)).
Hypothesis once_deliver :
  forall k w, good w ->
    (count p (effects_of (deliver k w)) <= 1)%nat /\
    (existsb p (effects_of (deliver k w)) = true ->
     idle (world_of (deliver k w))).

(** A call that leaves the tracker idle in the cycle that makes it,
    and is made at most once per cycle, is made at most once per
    run and leaves the tracker idle until the end of the run. *)
Lemma once_then_idle : forall cs w,
  good w ->
  (count p (effects_of (run cs w)) <= 1)%nat /\
  (existsb p (effects_of (run cs w)) = true -> idle (world_of (run cs w))).
Proof.
  induction cs as [| k cs IH]; intros w Hw.
  - cbn. split; [lia | discriminate].
  - rewrite run_cons_effects, run_cons_world, count_app, existsb_app.
    destruct (once_deliver k w Hw) as [H1 Hidle].
    destruct (existsb p (effects_of (deliver k w))) eqn:E.
    + destruct (Hidle eq_refl) as [Hs Ht].
      rewrite (run_idle cs _ Hs Ht). cbn.
      split; [lia | intros _; split; assumption].
    + rewrite (count_none _ _ E). cbn [orb Nat.add].
      apply IH, good_deliver, Hw.
Qed.
End OnceThenIdle.

Lemma timeout_deliver txh k w :
  in_mode txh w ->
  (count is_timeout_error (effects_of (deliver k w)) <= 1)%nat /\
  (existsb is_timeout_error (effects_of (deliver k w)) = true ->
   idle (world_of (deliver k w))).
Proof.
  unfold in_mode, idle, count.
  destruct (isSocketBasedProvider (this w));
    destruct k as [[e h rp] | [rp bp]], w as [[p t c bn lb cf ck ob iv] sb tk];
    step_code; intros (Ho & H1 & H2); use_cases; subst;
    run_code; cbn; split; try lia; intros; try discriminate; split; reflexivity.
Qed.

(** X11: during one observation the timeout error is handed to the
    observer at most once, in either mode, and from the cycle that
    hands it over on nothing is registered any more: no later head or
    timer firing reaches a callback. *)
Theorem X11_timeout_at_most_once_and_final txh p t c cs :
  (count is_timeout_error (effects_of (run cs (started txh p t c))) <= 1)%nat /\
  (timeout_fired (effects_of (run cs (started txh p t c))) = true ->
   idle (world_of (run cs (started txh p t c)))).
Proof.
  unfold timeout_fired.
  apply (once_then_idle is_timeout_error (in_mode txh)).
  - intros k w. apply in_mode_deliver.
  - intros k w. apply timeout_deliver.
  - apply in_mode_started.
Qed.

Lemma X11_timeout_at_most_once_and_final_witness :
  idle (world_of (run [Sample.quiet; Sample.quiet; Sample.quiet; Sample.quiet]
                    (started Sample.tx "HttpProvider" 3 1))).
Proof.
  apply (proj2 (X11_timeout_at_most_once_and_final Sample.tx "HttpProvider" 3 1
           [Sample.quiet; Sample.quiet; Sample.quiet; Sample.quiet])).
  reflexivity.
Defined.

Lemma poll_error_deliver txh k w :
  in_mode txh w /\ isSocketBasedProvider (this w) = false ->
  (count is_error (effects_of (deliver k w)) <= 1)%nat /\
  (existsb is_error (effects_of (deliver k w)) = true ->
   idle (world_of (deliver k w))).
Proof.
  unfold in_mode, idle, count. intros [H E]. rewrite E in H. revert H.
  destruct k as [[e h rp] | [rp bp]], w as [[p t c bn lb cf ck ob iv] sb tk];
    step_code; intros (Ho & H1 & H2); use_cases; subst;
    run_code; cbn; split; try lia; intros; try discriminate; split; reflexivity.
Qed.

(** ** Stopping an observation *)

Lemma stop_in_mode txh w :
  in_mode txh w ->
  outcome_of (stop w) = Throw (TypeError "unsubscribe") /\
  this (world_of (stop w)) = this w /\
  idle (world_of (stop w)) /\
  effects_of (stop w) =
  [if isSocketBasedProvider (this w) then SubscriptionUnsubscribe
   else ClearInterval].
Proof.
  unfold in_mode, idle. destruct w as [[p t c bn lb cf ck ob iv] sb tk].
  step_code. intros (-> & H).
  destruct (isSocketBasedProvider (mkObserver p t c bn lb cf ck true iv));
    use_cases; subst; step_code; repeat split; destruct iv; reflexivity.
Qed.

(** ** What is asked of the node *)

Lemma fetches_deliver txh k w :
  in_mode txh w ->
  existsb (is_foreign_fetch txh) (effects_of (deliver k w)) = false /\
  (isSocketBasedProvider (this w) = true ->
   filter is_block_fetch (effects_of (deliver k w)) = []).
Proof.
  unfold in_mode.
  destruct (isSocketBasedProvider (this w));
    destruct k as [[e h rp] | [rp bp]], w as [[p t c bn lb cf ck ob iv] sb tk];
    step_code; intros (Ho & H1 & H2); use_cases; subst;
    run_code; cbn; rewrite ?String.eqb_refl; split;
    intros; try discriminate; reflexivity.
Qed.

(** X14: during one observation every receipt call is made for the
    transaction hash given to [observe], and with a socket based
    provider no block is ever asked for. *)
Theorem X14_only_the_observed_transaction_is_queried txh p t c cs :
  existsb (is_foreign_fetch txh) (effects_of (run cs (started txh p t c))) = false /\
  (isSocketBasedProvider (constructor p t c) = true ->
   filter is_block_fetch (effects_of (run cs (started txh p t c))) = []).
Proof.
  rewrite <- (isSocketBasedProvider_started txh p t c).
  pose proof (in_mode_started txh p t c) as Hm. revert Hm.
  generalize (started txh p t c).
  induction cs as [| k cs IH]; intros w Hm.
  - cbn. split; reflexivity.
  - rewrite run_cons_effects, existsb_app, filter_app.
    destruct (fetches_deliver txh k w Hm) as [F B].
    destruct (IH _ (in_mode_deliver txh k w Hm)) as [F' B'].
    rewrite isSocketBasedProvider_deliver in B'.
    rewrite F, F'. split; [reflexivity |].
    intros E. rewrite (B E), (B' E). reflexivity.
Qed.

Lemma X14_only_the_observed_transaction_is_queried_witness :
  filter is_block_fetch
    (effects_of (run [Sample.pending 10; Sample.mined 11; Sample.mined 12]
                   (started Sample.tx "WebsocketProvider" 9 2))) = [].
Proof.
  apply (proj2 (X14_only_the_observed_transaction_is_queried Sample.tx
           "WebsocketProvider" 9 2
           [Sample.pending 10; Sample.mined 11; Sample.mined 12])).
  reflexivity.
Defined.

(** ** Choosing the mode *)

(** X15: subscribing to the Observable of [observe] engages exactly
    one resource, chosen by the name of the provider's class: the
    timer, with one [setInterval] call, when the name is
    [CustomProvider] or [HttpProvider], and the newHeads subscription,
    with one [subscribe] call, for every other name. No receipt or
    block call is made and the observer is not called yet. *)
Theorem X15_mode_follows_the_provider_name txh p t c :
  let res := (observe txh ;; onSubscribe txh) (new_world p t c) in
  (p = "CustomProvider" \/ p = "HttpProvider" ->
   effects_of res = [SetInterval] /\
   subscribed (world_of res) = None /\
   ticking (world_of res) = Some txh /\
   interval (this (world_of res)) = true) /\
  (p <> "CustomProvider" -> p <> "HttpProvider" ->
   effects_of res = [SubscriptionSubscribe] /\
   subscribed (world_of res) = Some txh /\
   ticking (world_of res) = None /\
   interval (this (world_of res)) = false).
Proof.
  cbv zeta. unfold new_world, constructor. split.
  - intros [-> | ->]; repeat split.
  - intros H1 H2. apply String.eqb_neq in H1, H2.
    step_code. cbv [isSocketBasedProvider provider]. rewrite H1, H2.
    step_code. repeat split.
Qed.

Lemma X15_mode_follows_the_provider_name_witness :
  effects_of ((observe Sample.tx ;; onSubscribe Sample.tx)
                (new_world "IpcProvider" 5 2)) = [SubscriptionSubscribe] /\
  subscribed (world_of ((observe Sample.tx ;; onSubscribe Sample.tx)
                          (new_world "IpcProvider" 5 2))) = Some Sample.tx /\
  ticking (world_of ((observe Sample.tx ;; onSubscribe Sample.tx)
                       (new_world "IpcProvider" 5 2))) = None /\
  interval (this (world_of ((observe Sample.tx ;; onSubscribe Sample.tx)
                              (new_world "IpcProvider" 5 2)))) = false.
Proof.
  apply (proj2 (X15_mode_follows_the_provider_name Sample.tx "IpcProvider" 5 2));
    discriminate.
Defined.

(** ** Running into the timeout *)

Lemma tick_without_receipt txh b w :
  httpCallback txh (mkTick (Resolved None) b) w =
  if confirmationChecks (this w) + 1 =? timeout (this w)
  then (Return tt,
        mkWorld (with_confirmationChecks (confirmationChecks (this w) + 1) (this w))
                (subscribed w)
                (if interval (this w) then None else ticking w),
        [ReceiptExecute txh; ClearInterval;
         ObserverError TimeoutError None (confirmations (this w))
           (confirmationChecks (this w) + 1)])
  else (Return tt,
        mkWorld (with_confirmationChecks (confirmationChecks (this w) + 1) (this w))
                (subscribed w) (ticking w),
        [ReceiptExecute txh]).
Proof.
  destruct w as [[p t c bn lb cf ck ob iv] sb tk]. run_code; reflexivity.
Qed.

Lemma ticks_until_timeout txh bs : forall w,
  bs <> [] ->
  subscribed w = None -> ticking w = Some txh -> interval (this w) = true ->
  timeout (this w) = confirmationChecks (this w) + Z.of_nat (List.length bs) ->
  effects_of (run (ticks_without_receipt bs) w) =
  repeat (ReceiptExecute txh) (List.length bs) ++
  [ClearInterval;
   ObserverError TimeoutError None (confirmations (this w)) (timeout (this w))] /\
  idle (world_of (run (ticks_without_receipt bs) w)).
Proof.
  induction bs as [| b bs IH]; intros w Hne Hs Hk Hi Ht; [congruence |].
  unfold ticks_without_receipt in *. cbn [map].
  rewrite run_cons_effects, run_cons_world. cbn [deliver]. rewrite Hk.
  rewrite tick_without_receipt.
  destruct bs as [| b' bs].
  - cbn [List.length] in Ht.
    replace (confirmationChecks (this w) + 1 =? timeout (this w)) with true
      by (symmetry; apply Z.eqb_eq; lia).
    rewrite Hi, !world_of_result, !effects_of_result. cbn.
    unfold idle. cbn. rewrite Hs, Ht.
    repeat split; repeat f_equal; lia.
  - cbn [List.length] in Ht.
    replace (confirmationChecks (this w) + 1 =? timeout (this w)) with false
      by (symmetry; apply Z.eqb_neq; lia).
    rewrite !world_of_result, !effects_of_result.
    destruct (IH (mkWorld
                (with_confirmationChecks (confirmationChecks (this w) + 1) (this w))
                (subscribed w) (ticking w)))
      as [E I]; try assumption; try discriminate.
    + cbn [this with_confirmationChecks confirmationChecks timeout List.length] in *.
      lia.
    + split; [| exact I]. rewrite E. reflexivity.
Qed.

(** X16: a poll observation whose budget is the number [n >= 1] of
    the following ticks, none of which finds a receipt, makes one
    receipt call per tick and in the last tick clears the timer and
    calls [error] with the timeout error, the receipt absent, 0
    confirmations and [n] checks; after that nothing is registered. *)
Theorem X16_poll_runs_into_the_timeout txh p c bs :
  isSocketBasedProvider (constructor p (Z.of_nat (List.length bs)) c) = false ->
  bs <> [] ->
  let res := run (ticks_without_receipt bs)
               (started txh p (Z.of_nat (List.length bs)) c) in
  effects_of res =
  repeat (ReceiptExecute txh) (List.length bs) ++
  [ClearInterval; ObserverError TimeoutError None 0 (Z.of_nat (List.length bs))] /\
  idle (world_of res).
Proof.
  intros Hp Hne. cbv zeta.
  assert (S : started txh p (Z.of_nat (List.length bs)) c =
              mkWorld (mkObserver p (Z.of_nat (List.length bs)) c [] None 0 0 true true)
                      None (Some txh)).
  { unfold started, new_world, constructor in *. step_code.
    replace (isSocketBasedProvider
               (mkObserver p (Z.of_nat (List.length bs)) c [] None 0 0 true false))
      with false by (symmetry; exact Hp).
    reflexivity. }
  rewrite S.
  apply (ticks_until_timeout txh bs); try reflexivity; assumption.
Qed.

Lemma X16_poll_runs_into_the_timeout_witness :
  effects_of (run (ticks_without_receipt [Resolved None; Failed "unused"; Resolved None])
                (started Sample.tx "HttpProvider" 3 1))
  = [ReceiptExecute Sample.tx; ReceiptExecute Sample.tx; ReceiptExecute Sample.tx;
     ClearInterval; ObserverError TimeoutError None 0 3].
Proof.
  apply (X16_poll_runs_into_the_timeout Sample.tx "HttpProvider" 1
           [Resolved None; Failed "unused"; Resolved None]);
    [reflexivity | discriminate].
Defined.

(** ** Push mode: reaching any target *)

Lemma includes_snoc l n m : includes (l ++ [n]) m = includes l m || (m =? n).
Proof.
  unfold includes. rewrite existsb_app. cbn. rewrite orb_false_r. reflexivity.
Qed.

(** A head not seen before, with a receipt, that reaches neither the
    target nor the budget. *)
Lemma head_counted txh h r w :
  includes (blockNumbers (this w)) (number h) = false ->
  confirmations (this w) + 1 <> blockConfirmations (this w) ->
  confirmationChecks (this w) + 1 <> timeout (this w) ->
  socketCallback txh (mkNewHead None h (Resolved (Some r))) w =
  (Return tt,
   mkWorld (mkObserver (provider (this w)) (timeout (this w))
              (blockConfirmations (this w))
              (blockNumbers (this w) ++ [number h]) (lastBlock (this w))
              (confirmations (this w) + 1) (confirmationChecks (this w) + 1)
              (observable (this w)) (interval (this w)))
           (subscribed w) (ticking w),
   [ReceiptExecute txh; ObserverNext r (confirmations (this w) + 1)]).
Proof.
  destruct w as [[p t c bn lb cf ck ob iv] sb tk]. step_code.
  intros -> Hc Ht. apply Z.eqb_neq in Hc, Ht. cbn [negb]. step_code.
  rewrite Hc. step_code. rewrite Ht. reflexivity.
Qed.

(** The same head when it reaches the target but not the budget. *)
Lemma head_confirms txh h r w :
  includes (blockNumbers (this w)) (number h) = false ->
  confirmations (this w) + 1 = blockConfirmations (this w) ->
  confirmationChecks (this w) + 1 <> timeout (this w) ->
  socketCallback txh (mkNewHead None h (Resolved (Some r))) w =
  (Return tt,
   mkWorld (mkObserver (provider (this w)) (timeout (this w))
              (blockConfirmations (this w))
              (blockNumbers (this w) ++ [number h]) (lastBlock (this w))
              (confirmations (this w) + 1) (confirmationChecks (this w) + 1)
              (observable (this w)) (interval (this w)))
           None (ticking w),
   [ReceiptExecute txh; ObserverNext r (confirmations (this w) + 1);
    SubscriptionUnsubscribe; ObserverComplete]).
Proof.
  destruct w as [[p t c bn lb cf ck ob iv] sb tk]. step_code.
  intros -> Hc Ht. apply Z.eqb_eq in Hc. apply Z.eqb_neq in Ht.
  cbn [negb]. step_code.
  rewrite Hc. step_code. rewrite Ht. reflexivity.
Qed.

Lemma heads_until_target txh hs : forall w,
  hs <> [] ->
  subscribed w = Some txh -> ticking w = None ->
  blockConfirmations (this w) = confirmations (this w) + Z.of_nat (List.length hs) ->
  NoDup (map (fun hr => number (fst hr)) hs) ->
  (forall hr, In hr hs -> includes (blockNumbers (this w)) (number (fst hr)) = false) ->
  timeout (this w) <= confirmationChecks (this w) \/
  confirmationChecks (this w) + Z.of_nat (List.length hs) < timeout (this w) ->
  effects_of (run (heads_with_receipt hs) w) =
  confirming_calls txh (confirmations (this w) + 1) (map snd hs) /\
  idle (world_of (run (heads_with_receipt hs) w)) /\
  confirmations (this (world_of (run (heads_with_receipt hs) w)))
  = blockConfirmations (this w).
Proof.
  induction hs as [| [h r] hs IH]; intros w Hne Hs Hk Hc Hd Hin Ht; [congruence |].
  unfold heads_with_receipt in *. cbn [map fst snd] in *.
  rewrite run_cons_effects, run_cons_world. cbn [deliver]. rewrite Hs.
  assert (Hh : includes (blockNumbers (this w)) (number h) = false)
    by (apply (Hin (h, r)); left; reflexivity).
  cbn [List.length] in Hc, Ht.
  destruct hs as [| hr' hs].
  - cbn [List.length] in Hc, Ht.
    rewrite head_confirms by (assumption || lia).
    rewrite !world_of_result, !effects_of_result. cbn.
    unfold idle. cbn. repeat split; [assumption | lia].
  - cbn [List.length] in Hc, Ht.
    rewrite head_counted by (assumption || lia).
    rewrite !world_of_result, !effects_of_result.
    inversion Hd as [| n l Hnotin Hd' E]; subst.
    match goal with
    | |- context [run _ ?w1] =>
        destruct (IH w1) as (E & I & C)
    end; try assumption; try discriminate.
    + cbn [this blockConfirmations confirmations List.length] in *. lia.
    + intros hr Hr. cbn [this blockNumbers]. rewrite includes_snoc.
      rewrite (Hin hr (or_intror Hr)). cbn [orb].
      apply Z.eqb_neq. intros Heq. apply Hnotin. rewrite <- Heq.
      change (In ((fun x : Block * Receipt => number (fst x)) hr)
                (map (fun x : Block * Receipt => number (fst x)) (hr' :: hs))).
      apply in_map, Hr.
    + cbn [this timeout confirmationChecks List.length] in *. lia.
    + cbn [this confirmations blockConfirmations] in *.
      split; [rewrite E; reflexivity | split; [exact I | exact C]].
Qed.

(** X17: a push observation whose target is the number [n >= 1] of
    the following heads, all of different numbers and each finding a
    receipt, and whose budget is not met within these [n] checks, makes
    for every head one receipt call and one [next] call numbered 1 to
    [n] in order, then unsubscribes and calls [complete]; it ends with
    [n] confirmations and nothing registered, and whatever is announced
    or fired after these heads has no effect. *)
Theorem X17_push_reaches_any_target txh p t hs more :
  isSocketBasedProvider (constructor p t (Z.of_nat (List.length hs))) = true ->
  hs <> [] ->
  NoDup (map (fun hr => number (fst hr)) hs) ->
  t <= 0 \/ Z.of_nat (List.length hs) < t ->
  let res := run (heads_with_receipt hs ++ more)
               (started txh p t (Z.of_nat (List.length hs))) in
  effects_of res = confirming_calls txh 1 (map snd hs) /\
  idle (world_of res) /\
  confirmations (this (world_of res)) = Z.of_nat (List.length hs).
Proof.
  intros Hp Hne Hd Ht. cbv zeta.
  assert (S : started txh p t (Z.of_nat (List.length hs)) =
              mkWorld (mkObserver p t (Z.of_nat (List.length hs)) [] None 0 0
                         true false)
                      (Some txh) None).
  { unfold started, new_world, constructor in *. step_code.
    replace (isSocketBasedProvider
               (mkObserver p t (Z.of_nat (List.length hs)) [] None 0 0 true false))
      with true by (symmetry; exact Hp).
    reflexivity. }
  rewrite S.
  destruct (heads_until_target txh hs
              (mkWorld (mkObserver p t (Z.of_nat (List.length hs)) [] None 0 0
                          true false) (Some txh) None))
    as (E & I & C); try assumption; try (intros; reflexivity).
  rewrite run_app_effects, run_app_world.
  destruct I as [Is Ik]. rewrite (run_idle more _ Is Ik).
  rewrite world_of_result, effects_of_result, app_nil_r.
  split; [exact E | split; [split; assumption | exact C]].
Qed.

Lemma X17_push_reaches_any_target_witness :
  effects_of (run (heads_with_receipt
                     [(Sample.head 10, Sample.receipt);
                      (Sample.head 11, Sample.receipt);
                      (Sample.head 12, Sample.receipt)]
                   ++ [Sample.mined 13; Sample.broken])
                (started Sample.tx "WebsocketProvider" 50 3))
  = [ReceiptExecute Sample.tx; ObserverNext Sample.receipt 1;
     ReceiptExecute Sample.tx; ObserverNext Sample.receipt 2;
     ReceiptExecute Sample.tx; ObserverNext Sample.receipt 3;
     SubscriptionUnsubscribe; ObserverComplete].
Proof.
  apply (X17_push_reaches_any_target Sample.tx "WebsocketProvider" 50
           [(Sample.head 10, Sample.receipt);
            (Sample.head 11, Sample.receipt);
            (Sample.head 12, Sample.receipt)]
           [Sample.mined 13; Sample.broken]).
  - reflexivity.
  - discriminate.
  - repeat constructor; simpl; intuition discriminate.
  - right. simpl. lia.
Defined.

(** ** Poll mode: reaching any target *)

(** A tick whose block is taken as a confirmation, and that reaches
    neither the target nor the budget. *)
Lemma tick_counted txh b r w :
  match lastBlock (this w) with
  | Some last => extends_last last b
  | None => True
  end ->
  confirmations (this w) + 1 <> blockConfirmations (this w) ->
  confirmationChecks (this w) + 1 <> timeout (this w) ->
  httpCallback txh (mkTick (Resolved (Some r)) (Resolved (Some b))) w =
  (Return tt,
   mkWorld (mkObserver (provider (this w)) (timeout (this w))
              (blockConfirmations (this w)) (blockNumbers (this w)) (Some b)
              (confirmations (this w) + 1) (confirmationChecks (this w) + 1)
              (observable (this w)) (interval (this w)))
           (subscribed w) (ticking w),
   [ReceiptExecute txh; BlockExecute (blockHash r);
    ObserverNext r (confirmations (this w) + 1)]).
Proof.
  destruct w as [[p t c bn lb cf ck ob iv] sb tk]. unfold extends_last.
  step_code. intros Hl Hc Ht. apply Z.eqb_neq in Hc, Ht.
  destruct lb as [last |]; step_code.
  - destruct Hl as [Hh Hn]. apply String.eqb_eq in Hh. apply Z.eqb_neq in Hn.
    rewrite Hh, Hn. cbn [andb negb]. step_code.
    rewrite Hc. step_code. rewrite Ht. reflexivity.
  - rewrite Hc. step_code. rewrite Ht. reflexivity.
Qed.

(** The same tick when it reaches the target but not the budget, on a
    tracker whose timer is the one [this.interval] names. *)
Lemma tick_confirms txh b r w :
  match lastBlock (this w) with
  | Some last => extends_last last b
  | None => True
  end ->
  interval (this w) = true ->
  confirmations (this w) + 1 = blockConfirmations (this w) ->
  confirmationChecks (this w) + 1 <> timeout (this w) ->
  httpCallback txh (mkTick (Resolved (Some r)) (Resolved (Some b))) w =
  (Return tt,
   mkWorld (mkObserver (provider (this w)) (timeout (this w))
              (blockConfirmations (this w)) (blockNumbers (this w)) (Some b)
              (confirmations (this w) + 1) (confirmationChecks (this w) + 1)
              (observable (this w)) (interval (this w)))
           (subscribed w) None,
   [ReceiptExecute txh; BlockExecute (blockHash r);
    ObserverNext r (confirmations (this w) + 1);
    ClearInterval; ObserverComplete]).
Proof.
  destruct w as [[p t c bn lb cf ck ob iv] sb tk]. unfold extends_last.
  step_code. intros Hl -> Hc Ht. apply Z.eqb_eq in Hc. apply Z.eqb_neq in Ht.
  destruct lb as [last |]; step_code.
  - destruct Hl as [Hh Hn]. apply String.eqb_eq in Hh. apply Z.eqb_neq in Hn.
    rewrite Hh, Hn. cbn [andb negb]. step_code.
    rewrite Hc. step_code. rewrite Ht. reflexivity.
  - rewrite Hc. step_code. rewrite Ht. reflexivity.
Qed.

Lemma ticks_until_target txh brs : forall w,
  brs <> [] ->
  subscribed w = None -> ticking w = Some txh -> interval (this w) = true ->
  blockConfirmations (this w) = confirmations (this w) + Z.of_nat (List.length brs) ->
  chained_from (lastBlock (this w)) (map fst brs) ->
  timeout (this w) <= confirmationChecks (this w) \/
  confirmationChecks (this w) + Z.of_nat (List.length brs) < timeout (this w) ->
  effects_of (run (ticks_with_receipt brs) w) =
  polling_calls txh (confirmations (this w) + 1) brs /\
  idle (world_of (run (ticks_with_receipt brs) w)) /\
  confirmations (this (world_of (run (ticks_with_receipt brs) w)))
  = blockConfirmations (this w).
Proof.
  induction brs as [| [b r] brs IH]; intros w Hne Hs Hk Hi Hc Hch Ht;
    [congruence |].
  unfold ticks_with_receipt in *. cbn [map fst snd chained_from] in *.
  destruct Hch as [Hb Hch].
  rewrite run_cons_effects, run_cons_world. cbn [deliver]. rewrite Hk.
  destruct brs as [| br' brs]; cbn [List.length] in Hc, Ht.
  - rewrite tick_confirms by (assumption || lia).
    rewrite !world_of_result, !effects_of_result. cbn.
    unfold idle. cbn. repeat split; [assumption | lia].
  - rewrite tick_counted by (assumption || lia).
    rewrite !world_of_result, !effects_of_result.
    match goal with
    | |- context [run _ ?w1] => destruct (IH w1) as (E & I & C)
    end; try assumption; try discriminate.
    + cbn [this blockConfirmations confirmations List.length] in *. lia.
    + cbn [this timeout confirmationChecks List.length] in *. lia.
    + cbn [this confirmations blockConfirmations] in *.
      split; [rewrite E; reflexivity | split; [exact I | exact C]].
Qed.

(** X18: a poll observation whose target is the number [n >= 1] of
    the following ticks, each finding a receipt and a block that names
    the block of the tick before as parent and has another number (the
    first block is free), and whose budget is not met within these [n]
    checks, makes per tick one receipt call, one block call for the
    receipt's hash and one [next] call numbered 1 to [n] in order, then
    clears the timer and calls [complete]; it ends with [n]
    confirmations and nothing registered, and later cycles have no
    effect. *)
Theorem X18_poll_reaches_any_target txh p t brs more :
  isSocketBasedProvider (constructor p t (Z.of_nat (List.length brs))) = false ->
  brs <> [] ->
  chained_from None (map fst brs) ->
  t <= 0 \/ Z.of_nat (List.length brs) < t ->
  let res := run (ticks_with_receipt brs ++ more)
               (started txh p t (Z.of_nat (List.length brs))) in
  effects_of res = polling_calls txh 1 brs /\
  idle (world_of res) /\
  confirmations (this (world_of res)) = Z.of_nat (List.length brs).
Proof.
  intros Hp Hne Hch Ht. cbv zeta.
  assert (S : started txh p t (Z.of_nat (List.length brs)) =
              mkWorld (mkObserver p t (Z.of_nat (List.length brs)) [] None 0 0
                         true true)
                      None (Some txh)).
  { unfold started, new_world, constructor in *. step_code.
    replace (isSocketBasedProvider
               (mkObserver p t (Z.of_nat (List.length brs)) [] None 0 0 true false))
      with false by (symmetry; exact Hp).
    reflexivity. }
  rewrite S.
  destruct (ticks_until_target txh brs
              (mkWorld (mkObserver p t (Z.of_nat (List.length brs)) [] None 0 0
                          true true) None (Some txh)))
    as (E & I & C); try assumption; try reflexivity.
  rewrite run_app_effects, run_app_world.
  destruct I as [Is Ik]. rewrite (run_idle more _ Is Ik).
  rewrite world_of_result, effects_of_result, app_nil_r.
  split; [exact E | split; [split; assumption | exact C]].
Qed.

Lemma X18_poll_reaches_any_target_witness :
  effects_of (run (ticks_with_receipt
                     [(Sample.block5, Sample.receipt_in Sample.block5);
                      (Sample.block6, Sample.receipt_in Sample.block6)]
                   ++ [Sample.quiet])
                (started Sample.tx "HttpProvider" 0 2))
  = [ReceiptExecute Sample.tx; BlockExecute "0xb5";
     ObserverNext (Sample.receipt_in Sample.block5) 1;
     ReceiptExecute Sample.tx; BlockExecute "0xb6";
     ObserverNext (Sample.receipt_in Sample.block6) 2;
     ClearInterval; ObserverComplete].
Proof.
  apply (X18_poll_reaches_any_target Sample.tx "HttpProvider" 0
           [(Sample.block5, Sample.receipt_in Sample.block5);
            (Sample.block6, Sample.receipt_in Sample.block6)]
           [Sample.quiet]).
  - reflexivity.
  - discriminate.
  - simpl. unfold extends_last. simpl. intuition discriminate.
  - left. lia.
Defined.

(** * The host with cycles in flight *)

Ltac step_host :=
  cbv [host_step host_of effects_of_host schedule in_order
       socketBegin socketResume httpBegin httpChecks httpCatch
       httpResumeReceipt httpResumeBlock waiting world pending] in *;
  cbn [host_run nth_error remove_nth flat_map] in *;
  step_code.

Ltac run_host := step_host; repeat (split_test; step_host).

(** ** Whole cycles are a schedule of the host *)

(** Delivering a whole cycle is running its events on a host with no
    cycle in flight, and leaves none in flight. *)
Lemma deliver_in_order c w :
  host_run (in_order c) (mkHost w []) =
  (mkHost (world_of (deliver c w)) [], effects_of (deliver c w)).
Proof.
  destruct c as [[[e |] h [[r |] | m]] | [[[r |] | m] [[b |] | m']]],
    w as [[p t c bn [last |] cf ck ob iv] [sb |] [tk |]];
    run_host; try discriminate; reflexivity.
Qed.

Lemma host_run_app es1 : forall es2 h,
  host_run (es1 ++ es2) h =
  (host_of (host_run es2 (host_of (host_run es1 h))),
   effects_of_host (host_run es1 h)
   ++ effects_of_host (host_run es2 (host_of (host_run es1 h)))).
Proof.
  induction es1 as [| e es1 IH]; intros es2 h.
  - cbn. destruct (host_run es2 h). reflexivity.
  - cbn [app host_run]. destruct (host_step e h) as [h1 l1]. rewrite IH.
    unfold host_of, effects_of_host.
    destruct (host_run es1 h1) as [h2 l2]. cbn [fst snd].
    destruct (host_run es2 h2) as [h3 l3]. cbn [fst snd].
    rewrite app_assoc. reflexivity.
Qed.

Lemma run_in_order cs : forall w,
  host_run (schedule cs) (mkHost w []) =
  (mkHost (world_of (run cs w)) [], effects_of (run cs w)).
Proof.
  induction cs as [| c cs IH]; intros w; [reflexivity |].
  unfold schedule in *. cbn [flat_map].
  rewrite host_run_app, deliver_in_order.
  unfold host_of, effects_of_host. cbn [fst snd]. rewrite IH. cbn [fst snd].
  rewrite run_cons_world, run_cons_effects. reflexivity.
Qed.

(** ** What holds however the cycles overlap *)

Ltac host_cases e h :=
  let w := fresh "w" in
  let pend := fresh "pend" in
  destruct h as [w pend];
  destruct e as [err nh | | i rp | i bp];
  unfold host_step; cbn [world pending];
  [ | | destruct (nth_error pend i) as [[nh | | r first] |]
      | destruct (nth_error pend i) as [[nh | | r first] |] ];
  destruct w as [[p t c bn lb cf ck ob iv] sb tk].

Lemma host_step_frame e h :
  configuration (this (world (host_of (host_step e h))))
  = configuration (this (world h)) /\
  observable (this (world (host_of (host_step e h)))) = observable (this (world h)) /\
  interval (this (world (host_of (host_step e h)))) = interval (this (world h)).
Proof.
  unfold configuration. host_cases e h; run_host; repeat split.
Qed.

Lemma isSocketBasedProvider_host_step e h :
  isSocketBasedProvider (this (world (host_of (host_step e h))))
  = isSocketBasedProvider (this (world h)).
Proof.
  destruct (host_step_frame e h) as (H & _). unfold configuration in H.
  unfold isSocketBasedProvider. inversion H as [[Hp Ht Hc]]. rewrite Hp.
  reflexivity.
Qed.

Lemma in_mode_host_step txh e h :
  in_mode txh (world h) -> in_mode txh (world (host_of (host_step e h))).
Proof.
  unfold in_mode. rewrite isSocketBasedProvider_host_step.
  destruct (isSocketBasedProvider (this (world h)));
    host_cases e h; step_host; intros (Ho & H1 & H2); use_cases; subst;
    run_host; repeat split; auto; try discriminate.
Qed.

Lemma host_run_cons e es h :
  host_run (e :: es) h =
  (host_of (host_run es (host_of (host_step e h))),
   effects_of_host (host_step e h)
   ++ effects_of_host (host_run es (host_of (host_step e h)))).
Proof.
  cbn [host_run]. unfold host_of, effects_of_host.
  destruct (host_step e h) as [h1 l1]. cbn [fst snd].
  destruct (host_run es h1) as [h2 l2]. reflexivity.
Qed.

Lemma in_mode_host_run txh es : forall h,
  in_mode txh (world h) -> in_mode txh (world (host_of (host_run es h))).
Proof.
  induction es as [| e es IH]; intros h H; [exact H |].
  rewrite host_run_cons. unfold host_of at 1. cbn [fst].
  apply IH, in_mode_host_step, H.
Qed.

(** ** Stopping *)

(** X13: at any point of an observation on a fresh tracker, however
    its cycles overlap, [stop] makes the one releasing call of the mode
    in use, [unsubscribe] or [clearInterval], and then throws the
    TypeError of [this.observable.unsubscribe()]. It leaves every field
    of the tracker as it was and does not call the observer. After it
    nothing is registered: a head or a timer firing starts no cycle,
    whatever is still in flight. *)
Theorem X13_stop_releases_then_throws txh p t c es :
  let w := world (host_of (host_run es (mkHost (started txh p t c) []))) in
  outcome_of (stop w) = Throw (TypeError "unsubscribe") /\
  this (world_of (stop w)) = this w /\
  idle (world_of (stop w)) /\
  effects_of (stop w) =
  [if isSocketBasedProvider (this w) then SubscriptionUnsubscribe
   else ClearInterval] /\
  forall inflight newHeadError newHead,
    host_step (Announced newHeadError newHead) (mkHost (world_of (stop w)) inflight)
    = (mkHost (world_of (stop w)) inflight, []) /\
    host_step Fired (mkHost (world_of (stop w)) inflight)
    = (mkHost (world_of (stop w)) inflight, []).
Proof.
  cbv zeta.
  destruct (stop_in_mode txh _
              (in_mode_host_run txh es (mkHost (started txh p t c) [])
                 (in_mode_started txh p t c)))
    as (Ho & Ht & [Hs Hk] & He).
  repeat split; try assumption;
    unfold host_step; cbn [world]; rewrite ?Hs, ?Hk; reflexivity.
Qed.

(** ** Errors in poll mode *)

Lemma forallb_remove_nth {A} (f : A -> bool) l : forall i,
  forallb f l = true -> forallb f (remove_nth i l) = true.
Proof.
  induction l as [| x l IH]; intros i H; [destruct i; reflexivity |].
  cbn in H. apply andb_true_iff in H. destruct H as [Hx Hl].
  destruct i; cbn; [exact Hl |]. rewrite Hx. apply IH, Hl.
Qed.

Lemma forallb_nth_error {A} (f : A -> bool) l : forall i x,
  forallb f l = true -> nth_error l i = Some x -> f x = true.
Proof.
  induction l as [| y l IH]; intros [| i] x H E; cbn in *; try discriminate;
    apply andb_true_iff in H; destruct H as [Hy Hl].
  - congruence.
  - apply (IH i); assumption.
Qed.

Lemma poll_host_step e h :
  poll_host h ->
  poll_host (host_of (host_step e h)) /\
  (existsb is_error (effects_of_host (host_step e h)) = true ->
   ticking (world (host_of (host_step e h))) = None) /\
  (ticking (world h) = None -> ticking (world (host_of (host_step e h))) = None).
Proof.
  unfold poll_host. intros (Hs & Hi & Hp).
  destruct h as [w pend]. cbn [world pending] in *.
  destruct e as [err nh | | i rp | i bp]; unfold host_step; cbn [world pending].
  - rewrite Hs. cbn. repeat split; auto; discriminate.
  - destruct w as [[p t c bn lb cf ck ob iv] sb tk]. cbn in Hs, Hi. subst sb.
    destruct tk; run_host; rewrite ?forallb_app, ?Hp; cbn;
      repeat split; auto; discriminate.
  - destruct (nth_error pend i) as [[nh | | r first] |] eqn:E.
    + apply (forallb_nth_error _ _ _ _ Hp) in E. discriminate.
    + pose proof (forallb_remove_nth _ _ i Hp) as Hr.
      destruct w as [[p t c bn lb cf ck ob iv] sb tk]. cbn in Hs, Hi. subst sb.
      destruct rp as [[r |] | m], Hi as [-> | Hi]; try (cbn in Hi; subst iv);
        run_host; rewrite ?forallb_app, ?Hr; cbn;
        repeat split; auto; try discriminate.
    + cbn. repeat split; auto; discriminate.
    + cbn. repeat split; auto; discriminate.
  - destruct (nth_error pend i) as [[nh | | r first] |] eqn:E;
      try (cbn; repeat split; auto; discriminate).
    pose proof (forallb_remove_nth _ _ i Hp) as Hr.
    destruct w as [[p t c bn lb cf ck ob iv] sb tk]. cbn in Hs, Hi. subst sb.
    destruct bp as [[b |] | m], first, lb as [last |], Hi as [-> | Hi];
      try (cbn in Hi; subst iv);
      run_host; rewrite ?Hr; cbn; repeat split; auto; try discriminate.
Qed.

Lemma poll_host_run es : forall h,
  poll_host h ->
  (existsb is_error (effects_of_host (host_run es h)) = true ->
   ticking (world (host_of (host_run es h))) = None) /\
  (ticking (world h) = None -> ticking (world (host_of (host_run es h))) = None).
Proof.
  induction es as [| e es IH]; intros h H.
  - cbn. split; [discriminate | auto].
  - rewrite host_run_cons. unfold host_of at 1 3, effects_of_host at 1.
    cbn [fst snd]. rewrite existsb_app.
    destruct (poll_host_step e h H) as (H1 & He & Hk).
    destruct (IH _ H1) as [IHe IHk].
    split; [| auto].
    destruct (existsb is_error (effects_of_host (host_step e h))); cbn [orb]; auto.
Qed.

Lemma poll_host_started txh p t c :
  isSocketBasedProvider (constructor p t c) = false ->
  poll_host (mkHost (started txh p t c) []).
Proof.
  intros Hp. unfold poll_host, started, new_world, constructor in *.
  cbn [world pending]. step_code.
  replace (isSocketBasedProvider (mkObserver p t c [] None 0 0 true false))
    with false by (symmetry; exact Hp).
  step_code. repeat split. right. reflexivity.
Qed.

(** X12: in poll mode, on a fresh tracker observed once, an [error]
    call disarms the timer for good, however the ticks overlap: once
    [error] has been called no timer firing starts a cycle any more
    (cycles already in flight still resume). When every tick settles
    before the next one fires, [error] is called at most once during
    the observation. *)
Theorem X12_poll_error_disarms_the_timer txh p t c :
  isSocketBasedProvider (constructor p t c) = false ->
  (forall es,
     existsb is_error
       (effects_of_host (host_run es (mkHost (started txh p t c) []))) = true ->
     ticking (world (host_of (host_run es (mkHost (started txh p t c) [])))) = None) /\
  (forall cs,
     (count is_error
        (effects_of_host (host_run (schedule cs) (mkHost (started txh p t c) [])))
      <= 1)%nat).
Proof.
  intros Hp. split.
  - intros es. apply poll_host_run, poll_host_started, Hp.
  - intros cs. rewrite run_in_order. unfold effects_of_host. cbn [snd].
    apply (once_then_idle is_error
             (fun w => in_mode txh w /\ isSocketBasedProvider (this w) = false)).
    + intros k w [Hm E]. split; [apply in_mode_deliver, Hm |].
      rewrite isSocketBasedProvider_deliver. exact E.
    + intros k w. apply poll_error_deliver.
    + split; [apply in_mode_started |].
      rewrite isSocketBasedProvider_started. exact Hp.
Qed.

Lemma X12_poll_error_disarms_the_timer_witness :
  ticking (world (host_of
    (host_run [Fired; Fired; ReceiptSettled 1 (Failed "bad gateway");
               ReceiptSettled 0 (Resolved None)]
       (mkHost (started Sample.tx "HttpProvider" 3 1) [])))) = None.
Proof.
  apply (proj1 (X12_poll_error_disarms_the_timer Sample.tx "HttpProvider" 3 1
                  eq_refl)).
  reflexivity.
Defined.

(** When ticks overlap the second part does not hold: two ticks in
    flight whose receipt calls both reject call [error] twice. *)
Example overlapping_failures_call_error_twice :
  effects_of_host
    (host_run [Fired; Fired; ReceiptSettled 0 (Failed "bad gateway");
               ReceiptSettled 0 (Failed "bad gateway")]
       (mkHost (started Sample.tx "HttpProvider" 3 1) []))
  = [ReceiptExecute Sample.tx; ReceiptExecute Sample.tx;
     ClearInterval; ObserverError (Rejected "bad gateway") None 0 0;
     ClearInterval; ObserverError (Rejected "bad gateway") None 0 0].
Proof. reflexivity. Qed.

(** ** [complete] when cycles do not overlap *)

(** X10: during one observation on a fresh tracker with a positive
    target, in which every cycle settles before the next head or timer
    firing is delivered, [complete] is called exactly once if
    [confirmations] has reached [blockConfirmations], and not at all as
    long as it has not. *)
Theorem X10_complete_once_when_cycles_do_not_overlap txh p t c cs :
  0 < c ->
  count is_complete
    (effects_of_host (host_run (schedule cs) (mkHost (started txh p t c) [])))
  = if confirmations (this (world (host_of
         (host_run (schedule cs) (mkHost (started txh p t c) []))))) =? c
    then 1%nat else 0%nat.
Proof.
  intros Hc. rewrite run_in_order. unfold effects_of_host, host_of.
  cbn [fst snd world]. apply complete_run.
  - apply within_target_started, Hc.
  - unfold started, new_world, constructor. run_code; exact Hc.
Qed.

Lemma X10_complete_once_when_cycles_do_not_overlap_witness :
  count is_complete
    (effects_of_host
       (host_run (schedule [Sample.pending 10; Sample.mined 11; Sample.mined 12])
          (mkHost (started Sample.tx "WebsocketProvider" 9 2) [])))
  = if confirmations (this (world (host_of
         (host_run (schedule [Sample.pending 10; Sample.mined 11; Sample.mined 12])
            (mkHost (started Sample.tx "WebsocketProvider" 9 2) []))))) =? 2
    then 1%nat else 0%nat.
Proof.
  apply (X10_complete_once_when_cycles_do_not_overlap Sample.tx
           "WebsocketProvider" 9 2
           [Sample.pending 10; Sample.mined 11; Sample.mined 12]).
  lia.
Defined.

(** When ticks overlap it does not hold: with a target of one, a tick
    that is in flight while another one completes finds the same block
    again, counts nothing, and calls [complete] a second time. *)
Example overlapping_ticks_complete_twice :
  effects_of_host
    (host_run [Fired; Fired;
               ReceiptSettled 0 (Resolved (Some Sample.receipt));
               BlockSettled 1 (Resolved (Some Sample.block5));
               ReceiptSettled 0 (Resolved (Some Sample.receipt));
               BlockSettled 0 (Resolved (Some Sample.block5))]
       (mkHost (started Sample.tx "HttpProvider" 9 1) []))
  = [ReceiptExecute Sample.tx; ReceiptExecute Sample.tx;
     BlockExecute "0xb5"; ObserverNext Sample.receipt 1;
     ClearInterval; ObserverComplete;
     BlockExecute "0xb5"; ClearInterval; ObserverComplete].
Proof. reflexivity. Qed.
